(** * Client-side chat synchronization core of sakhi: a shallow embedding

    This file models these modules of the frontend (all concatenated in
    [src/src/hooks/useViewportHeight.ts]):
    - [ApiService] (services/api.ts): the token store and the
      authenticated request executor, with [request] and [refreshToken]
      as mutually recursive functions over an explicit fuel bound (fuel
      exhaustion stands for a run that never returns), and the auth and
      report endpoints built on it;
    - [AuthProvider] (contexts/AuthContext.tsx): [isAuthenticated], the
      startup [checkAuth] effect, [login], [register] and [logout];
    - [AdminProvider] (contexts/AdminContext.tsx): the passcode gate and
      the report operations of the admin dashboard;
    - [ChatProvider] (contexts/ChatContext.tsx): the chat operations, in a
      small state/exception/effect monad;
    - [FormUrlencoded]: the decoding side of [URLSearchParams], used to
      check the query strings that [getAllReports] builds.

    The backend is an external collaborator: it is a parameter of every
    operation (an oracle answering each fetch, or each apiService call). *)

From Stdlib Require Import String Ascii List ZArith QArith Qround Bool Lia.
From Stdlib Require Import DecimalString DecimalPos Lqa.
Import ListNotations.

Set Warnings "-register-all".
Open Scope string_scope.
Open Scope Z_scope.

(** [Number.prototype.toString] on an integer. *)
Definition Z_to_string (z : Z) : string :=
  NilZero.string_of_int (Z.to_int z).

(** [s.includes(needle)]. *)
Definition includes (hay needle : string) : bool :=
  match String.index 0 needle hay with Some _ => true | None => false end.

(* ------------------------------------------------------------------ *)
(** ** services/api.ts *)

Module ApiService.

(** JSON values exchanged with the backend. *)
Inductive Json : Type :=
| JNull
| JBool (b : bool)
| JNum (z : Z)
| JStr (s : string)
| JArr (xs : list Json)
| JObj (fields : list (string * Json)).

Fixpoint json_get (k : string) (fs : list (string * Json)) : option Json :=
  match fs with
  | [] => None
  | (k', v) :: fs' => if String.eqb k k' then Some v else json_get k fs'
  end.

(** Property access [j.k]; [None] is [undefined]. *)
Definition field (j : Json) (k : string) : option Json :=
  match j with JObj fs => json_get k fs | _ => None end.

(** JavaScript truthiness of a JSON value. *)
Definition json_truthy (j : Json) : bool :=
  match j with
  | JNull => false
  | JBool b => b
  | JNum z => negb (Z.eqb z 0)
  | JStr s => negb (String.eqb s "")
  | JArr _ | JObj _ => true
  end.

(** [String(j)], as used by [new Error(errorData.detail)]. An array
    prints as [xs.join(',')], where a [null] element prints as "". *)
Fixpoint json_to_string (j : Json) : string :=
  match j with
  | JNull => "null"
  | JBool b => if b then "true" else "false"
  | JNum z => Z_to_string z
  | JStr s => s
  | JObj _ => "[object Object]"
  | JArr xs =>
      (fix go (l : list Json) : string :=
         match l with
         | [] => ""
         | [x] => match x with JNull => "" | _ => json_to_string x end
         | x :: r => match x with JNull => "" | _ => json_to_string x end ++ "," ++ go r
         end) xs
  end.

(** A JavaScript value read off a parsed response, such as
    [response.access_token]: [None] is [undefined]. *)
Definition js_truthy (v : option Json) : bool :=
  match v with Some j => json_truthy j | None => false end.

(** [String(v)], as in a template literal or [localStorage.setItem]. *)
Definition js_string (v : option Json) : string :=
  match v with Some j => json_to_string j | None => "undefined" end.

(** Truthiness of a [string | null] (null and the empty string are falsy). *)
Definition truthy (o : option string) : bool :=
  match o with Some s => negb (String.eqb s "") | None => false end.

(** [import.meta.env.VITE_API_URL || 'http://localhost:8000'], at its
    fallback value. *)
Definition API_BASE_URL : string := "http://localhost:8000".

(** The [RequestInit] options the service passes. *)
Record Options := mkOptions { opt_method : string; opt_body : option Json }.

Definition GET : Options := mkOptions "GET" None.

(** One call of [fetch]: URL, method, Authorization header, body. *)
Record FetchCall := mkCall {
  fc_url : string;
  fc_method : string;
  fc_auth : option string;
  fc_body : option Json }.

(** What [fetch] yields: a rejection with a [TypeError] (its message is
    browser dependent, e.g. "Failed to fetch" or "Load failed"), or a
    response with a status and a body ([None]: not JSON). *)
Inductive Response :=
| NetworkError (msg : string)
| Http (status : Z) (body : option Json).

(** The backend: its answer to a call, given all earlier calls. *)
Definition Server := list FetchCall -> FetchCall -> Response.

Inductive ErrKind := KError | KTypeError | KSyntaxError.

Record JsError := mkErr { err_kind : ErrKind; err_msg : string }.

(** Outcome of an async call: resolved, rejected, or still running when
    the fuel ran out (a call that does not return). *)
Inductive Res :=
| Ok (j : Json)
| Fail (e : JsError)
| Stuck.

(** The token store: the in-memory [accessToken] field (any value a
    response held, [Some JNull] being [null]), the two localStorage
    entries, and the log of every fetch made so far. *)
Record ApiState := mkApi {
  accessToken : option Json;
  ls_access : option string;
  ls_refresh : option string;
  calls : list FetchCall }.

(** [localStorage.getItem(k)] as a value: a string, or [null]. *)
Definition stored_value (v : option string) : option Json :=
  match v with Some s => Some (JStr s) | None => Some JNull end.

(** [constructor]: [this.accessToken = localStorage.getItem('access_token')]. *)
Definition init_api (stored_access stored_refresh : option string) : ApiState :=
  mkApi (stored_value stored_access) stored_access stored_refresh [].

Definition fetch (srv : Server) (st : ApiState) (c : FetchCall) : ApiState * Response :=
  (mkApi (accessToken st) (ls_access st) (ls_refresh st) (app (calls st) [c]),
   srv (calls st) c).

(** [logout()]. *)
Definition logout (st : ApiState) : ApiState :=
  mkApi (Some JNull) None None (calls st).

Definition response_ok (status : Z) : bool := (200 <=? status) && (status <=? 299).

(** [`Bearer ${this.accessToken}`]. *)
Definition bearer (tok : option Json) : string := "Bearer " ++ js_string tok.

(** [response.json()] on a successful response. [None] is a body that
    is not JSON; the text of the [SyntaxError], which depends on the body
    and on the engine, is one fixed message here. *)
Definition json_of (body : option Json) : Res :=
  match body with
  | Some j => Ok j
  | None => Fail (mkErr KSyntaxError "Unexpected token in JSON")
  end.

(** [errorData.detail || `HTTP error! status: ${response.status}`], where
    [errorData] is [{}] when the body is not JSON. *)
Definition detail_message (body : option Json) (status : Z) : string :=
  match option_map (fun j => field j "detail") body with
  | Some (Some d) =>
      if json_truthy d then json_to_string d
      else "HTTP error! status: " ++ Z_to_string status
  | _ => "HTTP error! status: " ++ Z_to_string status
  end.

(** The error thrown for a failed response: [new Error(...)] with that
    message, unless the body is [null], whose [detail] cannot be read. *)
Definition http_error (body : option Json) (status : Z) : JsError :=
  match body with
  | Some JNull => mkErr KTypeError "Cannot read properties of null (reading 'detail')"
  | _ => mkErr KError (detail_message body status)
  end.

(** The outer [catch]: a [TypeError] mentioning "fetch" becomes the
    connectivity error; anything else is rethrown unchanged. *)
Definition outer_catch (e : JsError) : JsError :=
  match err_kind e with
  | KTypeError =>
      if includes (err_msg e) "fetch"
      then mkErr KError ("Backend server is not running. Please check if the backend server is running on " ++ API_BASE_URL)
      else e
  | _ => e
  end.

Definition auth_failed : JsError := mkErr KError "Authentication failed".
Definition auth_required : JsError := mkErr KError "Authentication required".

(** [response.access_token], [response.refresh_token] of an
    [AuthResponse] that is not [null]. *)
Definition token_field (j : Json) (k : string) : option Json := field j k.

(** [localStorage.setItem(k, v)] stores [String(v)]. *)
Definition ls_value (v : option Json) : option string := Some (js_string v).

Definition with_calls (st : ApiState) (cs : list FetchCall) : ApiState :=
  mkApi (accessToken st) (ls_access st) (ls_refresh st) cs.

(** [request<T>(endpoint, options)] and [refreshToken()]. *)
Fixpoint request (fuel : nat) (srv : Server) (st : ApiState)
    (endpoint : string) (o : Options) {struct fuel} : ApiState * Res :=
  match fuel with
  | O => (st, Stuck)
  | S fuel' =>
    let url := API_BASE_URL ++ endpoint in
    let auth := if js_truthy (accessToken st) then Some (bearer (accessToken st)) else None in
    let config := mkCall url (opt_method o) auth (opt_body o) in
    let '(st1, resp) := fetch srv st config in
    match resp with
    | NetworkError m => (st1, Fail (outer_catch (mkErr KTypeError m)))
    | Http status body =>
      if response_ok status then (st1, json_of body)
      else if Z.eqb status 401 && js_truthy (accessToken st1) then
        if truthy (ls_refresh st1) then
          let '(st2, r) := refreshToken fuel' srv st1 in
          match r with
          | Stuck => (st2, Stuck)
          | Fail _ => (logout st2, Fail auth_failed)
          | Ok _ =>
            let config' := mkCall url (opt_method o) (Some (bearer (accessToken st2))) (opt_body o) in
            let '(st3, resp') := fetch srv st2 config' in
            match resp' with
            | Http status' body' =>
                if response_ok status' then (st3, json_of body')
                else (logout st3, Fail auth_failed)
            | NetworkError _ => (logout st3, Fail auth_failed)
            end
          end
        else (logout st1, Fail auth_required)
      else (st1, Fail (outer_catch (http_error body status)))
    end
  end
with refreshToken (fuel : nat) (srv : Server) (st : ApiState) {struct fuel}
    : ApiState * Res :=
  match fuel with
  | O => (st, Stuck)
  | S fuel' =>
    if negb (truthy (ls_refresh st)) then
      (st, Fail (mkErr KError "No refresh token available"))
    else
      let rt := match ls_refresh st with Some s => s | None => "" end in
      let '(st1, r) :=
        request fuel' srv st "/auth/refresh"
          (mkOptions "POST" (Some (JObj [("refresh_token", JStr rt)]))) in
      match r with
      | Ok JNull =>
          (logout st1, Fail (mkErr KTypeError "Cannot read properties of null (reading 'access_token')"))
      | Ok resp =>
          (mkApi (token_field resp "access_token")
                 (ls_value (token_field resp "access_token"))
                 (ls_value (token_field resp "refresh_token"))
                 (calls st1), Ok JNull)
      | Fail e => (logout st1, Fail e)
      | Stuck => (st1, Stuck)
      end
  end.

(** The [config] of the first fetch of [request]. *)
Definition first_call (st : ApiState) (ep : string) (o : Options) : FetchCall :=
  mkCall (API_BASE_URL ++ ep) (opt_method o)
    (if js_truthy (accessToken st) then Some (bearer (accessToken st)) else None) (opt_body o).

(** [getCurrentUser()]. *)
Definition getCurrentUser (fuel : nat) (srv : Server) (st : ApiState) : ApiState * Res :=
  request fuel srv st "/auth/me" GET.

(** [isAuthenticated()]: [!!this.accessToken]. *)
Definition isAuthenticated (st : ApiState) : bool := js_truthy (accessToken st).

(** Number of calls made to the refresh endpoint. *)
Definition refresh_calls (st : ApiState) : nat :=
  List.length (filter (fun c => String.eqb (fc_url c) (API_BASE_URL ++ "/auth/refresh")) (calls st)).

(** [JSON.stringify(credentials)] of a [LoginCredentials]. *)
Definition login_body (email password : string) : Json :=
  JObj [("email", JStr email); ("password", JStr password)].

(** [login(credentials)]. As in [refreshToken], on a [null] response the
    property read [response.access_token] throws. *)
Definition login (fuel : nat) (srv : Server) (st : ApiState) (email password : string)
  : ApiState * Res :=
  let '(st1, r) := request fuel srv st "/auth/login"
                     (mkOptions "POST" (Some (login_body email password))) in
  match r with
  | Ok JNull =>
      (st1, Fail (mkErr KTypeError "Cannot read properties of null (reading 'access_token')"))
  | Ok response =>
      (mkApi (token_field response "access_token")
             (ls_value (token_field response "access_token"))
             (ls_value (token_field response "refresh_token"))
             (calls st1), Ok response)
  | Fail e => (st1, Fail e)
  | Stuck => (st1, Stuck)
  end.

(** [JSON.stringify(data)] of a [RegisterData]. *)
Definition register_body (email username password : string) : Json :=
  JObj [("email", JStr email); ("username", JStr username); ("password", JStr password)].

(** [register(data)]. *)
Definition register (fuel : nat) (srv : Server) (st : ApiState)
    (email username password : string) : ApiState * Res :=
  request fuel srv st "/auth/register"
    (mkOptions "POST" (Some (register_body email username password))).

(** [createReport(report)]. *)
Definition createReport (fuel : nat) (srv : Server) (st : ApiState) (report : Json)
  : ApiState * Res :=
  request fuel srv st "/api/reports" (mkOptions "POST" (Some report)).

(** [createReportWithFiles(formData)]: a direct [fetch], outside the
    executor and without headers. Its multipart body is not a JSON value
    and is left out of the recorded call. *)
Definition createReportWithFiles (srv : Server) (st : ApiState) : ApiState * Res :=
  let '(st1, resp) := fetch srv st (mkCall (API_BASE_URL ++ "/api/reports") "POST" None None) in
  match resp with
  | NetworkError m => (st1, Fail (mkErr KTypeError m))
  | Http status body =>
      if response_ok status then (st1, json_of body)
      else
        match body with
        | None => (st1, Fail (mkErr KError "Failed to submit report"))
        | Some JNull =>
            (st1, Fail (mkErr KTypeError "Cannot read properties of null (reading 'detail')"))
        | Some j =>
            match field j "detail" with
            | Some d =>
                if json_truthy d then (st1, Fail (mkErr KError (json_to_string d)))
                else (st1, Fail (mkErr KError "Failed to submit report"))
            | None => (st1, Fail (mkErr KError "Failed to submit report"))
            end
        end
  end.

(** *** [URLSearchParams]: the application/x-www-form-urlencoded
    serializer. A string is given by its UTF-8 bytes. *)

Definition hex_digit (n : nat) : ascii :=
  ascii_of_nat (if Nat.ltb n 10 then 48 + n else 55 + n)%nat.

Definition form_unreserved (n : nat) : bool :=
  Nat.eqb n 42 || Nat.eqb n 45 || Nat.eqb n 46
  || (Nat.leb 48 n && Nat.leb n 57) || (Nat.leb 65 n && Nat.leb n 90)
  || Nat.eqb n 95 || (Nat.leb 97 n && Nat.leb n 122).

Fixpoint form_encode (s : string) : string :=
  match s with
  | EmptyString => EmptyString
  | String a s' =>
      let n := nat_of_ascii a in
      if Nat.eqb n 32 then String "+" (form_encode s')
      else if form_unreserved n then String a (form_encode s')
      else String "%" (String (hex_digit (n / 16)) (String (hex_digit (n mod 16)) (form_encode s')))
  end.

(** [params.toString()]. *)
Fixpoint serialize (ps : list (string * string)) : string :=
  match ps with
  | [] => ""
  | [(k, v)] => form_encode k ++ "=" ++ form_encode v
  | (k, v) :: r => form_encode k ++ "=" ++ form_encode v ++ "&" ++ serialize r
  end.

(** The parameters [getAllReports] appends. *)
Definition report_params (statusFilter search : option string) : list (string * string) :=
  app (match statusFilter with
       | Some f => if negb (String.eqb f "") && negb (String.eqb f "all")
                   then [("status_filter", f)] else []
       | None => []
       end)
      (match search with
       | Some q => if negb (String.eqb q "") then [("search", q)] else []
       | None => []
       end).

Definition reports_endpoint (statusFilter search : option string) : string :=
  let queryString := serialize (report_params statusFilter search) in
  if String.eqb queryString "" then "/api/reports" else "/api/reports?" ++ queryString.

(** [getAllReports(statusFilter?, search?)]. *)
Definition getAllReports (fuel : nat) (srv : Server) (st : ApiState)
    (statusFilter search : option string) : ApiState * Res :=
  request fuel srv st (reports_endpoint statusFilter search) GET.

(** [updateReportStatus(reportId, status)]. *)
Definition updateReportStatus (fuel : nat) (srv : Server) (st : ApiState)
    (reportId : Z) (status : string) : ApiState * Res :=
  request fuel srv st ("/api/reports/" ++ Z_to_string reportId ++ "/status")
    (mkOptions "PATCH" (Some (JObj [("status", JStr status)]))).

(** [deleteReport(reportId)]. *)
Definition deleteReport (fuel : nat) (srv : Server) (st : ApiState) (reportId : Z)
  : ApiState * Res :=
  request fuel srv st ("/api/reports/" ++ Z_to_string reportId) (mkOptions "DELETE" None).

(** [getReportStats()]. *)
Definition getReportStats (fuel : nat) (srv : Server) (st : ApiState) : ApiState * Res :=
  request fuel srv st "/api/reports/stats/summary" GET.

End ApiService.

(* ------------------------------------------------------------------ *)
(** ** contexts/AuthContext.tsx *)

Module AuthProvider.
Import ApiService.

(** The provider's [user] state (the [/auth/me] payload) and the shared
    [apiService] singleton. *)
Record AuthState := mkAuth { user : option Json; api : ApiState }.

(** [const isAuthenticated = !!user && apiService.isAuthenticated()]. *)
Definition isAuthenticated (a : AuthState) : bool :=
  match user a with Some u => json_truthy u | None => false end
  && ApiService.isAuthenticated (api a).

(** State at mount: no user, tokens as read from localStorage. *)
Definition startup (stored_access stored_refresh : option string) : AuthState :=
  mkAuth None (init_api stored_access stored_refresh).

(** The startup [checkAuth] effect. *)
Definition checkAuth (fuel : nat) (srv : Server) (a : AuthState) : AuthState :=
  if ApiService.isAuthenticated (api a) then
    let '(st', r) := getCurrentUser fuel srv (api a) in
    match r with
    | Ok u => mkAuth (Some u) st'
    | Fail _ => mkAuth (user a) (logout st')
    | Stuck => mkAuth (user a) st'
    end
  else a.

(** The provider's other state: [error] and [isLoading]. *)
Record AuthView := mkView { v_auth : AuthState; error : option string; isLoading : bool }.

(** The message [login] shows for an error it catches. *)
Definition login_message (e : JsError) : string :=
  let m := err_msg e in
  if includes m "Backend server is not running"
  then "Backend server is not running. Please start the backend server."
  else if includes m "Authentication required" then "Please check your credentials and try again."
  else if includes m "Authentication failed" then "Session expired. Please login again."
  else m.

(** [login(credentials)] of the provider. *)
Definition login (fuel : nat) (srv : Server) (v : AuthView) (email password : string)
  : AuthView * Res :=
  let u0 := user (v_auth v) in
  let '(st1, r1) := ApiService.login fuel srv (api (v_auth v)) email password in
  match r1 with
  | Ok _ =>
      let '(st2, r2) := getCurrentUser fuel srv st1 in
      match r2 with
      | Ok userData => (mkView (mkAuth (Some userData) st2) None false, Ok JNull)
      | Fail e => (mkView (mkAuth u0 st2) (Some (login_message e)) false, Fail e)
      | Stuck => (mkView (mkAuth u0 st2) None true, Stuck)
      end
  | Fail e => (mkView (mkAuth u0 st1) (Some (login_message e)) false, Fail e)
  | Stuck => (mkView (mkAuth u0 st1) None true, Stuck)
  end.

(** [register(data)] of the provider: the service's [register], then the
    provider's [login]. *)
Definition register (fuel : nat) (srv : Server) (v : AuthView)
    (email username password : string) : AuthView * Res :=
  let '(st1, r1) := ApiService.register fuel srv (api (v_auth v)) email username password in
  let v1 := mkView (mkAuth (user (v_auth v)) st1) None true in
  match r1 with
  | Ok _ =>
      let '(v2, r2) := login fuel srv v1 email password in
      match r2 with
      | Ok _ => (mkView (v_auth v2) (error v2) false, Ok JNull)
      | Fail e => (mkView (v_auth v2) (Some (err_msg e)) false, Fail e)
      | Stuck => (v2, Stuck)
      end
  | Fail e => (mkView (v_auth v1) (Some (err_msg e)) false, Fail e)
  | Stuck => (v1, Stuck)
  end.

(** [logout()] of the provider. *)
Definition logout (v : AuthView) : AuthView :=
  mkView (mkAuth None (ApiService.logout (api (v_auth v)))) None (isLoading v).

End AuthProvider.

(* ------------------------------------------------------------------ *)
(** ** contexts/AdminContext.tsx *)

Module AdminProvider.
Import ApiService.

(** A [Report] as the provider stores it: each field as read off the
    server's JSON object ([None]: undefined). *)
Record Report := mkReport {
  r_id : option Json;
  r_name : option Json;
  r_email : option Json;
  r_phone : option Json;
  r_subject : option Json;
  r_description : option Json;
  r_files : option Json;
  r_created_at : option Json;
  r_updated_at : option Json;
  r_status : option Json }.

(** The argument of [addReport]. *)
Record ReportData := mkData {
  d_name : string;
  d_email : string;
  d_phone : string;
  d_subject : string;
  d_description : string;
  d_files : Json }.

(** The provider's React state, the [admin_authenticated] localStorage
    entry and the shared [apiService]. [reportStats] starts as [null]. *)
Record AdminState := mkAdmin {
  isAdminAuthenticated : bool;
  reports : list Report;
  reportStats : Json;
  isLoading : bool;
  error : option string;
  ls_admin : option string;
  ad_api : ApiState }.

Definition ADMIN_PASSCODE : string := "sakhi12".

(** First render and the mount effect: the flag is read back from
    localStorage. *)
Definition mount (stored : option string) (st : ApiState) : AdminState :=
  mkAdmin (match stored with Some v => String.eqb v "true" | None => false end)
          [] JNull false None stored st.

Definition with_api (s : AdminState) (st : ApiState) : AdminState :=
  mkAdmin (isAdminAuthenticated s) (reports s) (reportStats s) (isLoading s) (error s) (ls_admin s) st.
Definition set_reports (s : AdminState) (rs : list Report) : AdminState :=
  mkAdmin (isAdminAuthenticated s) rs (reportStats s) (isLoading s) (error s) (ls_admin s) (ad_api s).
Definition set_stats (s : AdminState) (j : Json) : AdminState :=
  mkAdmin (isAdminAuthenticated s) (reports s) j (isLoading s) (error s) (ls_admin s) (ad_api s).
Definition set_loading (s : AdminState) (b : bool) : AdminState :=
  mkAdmin (isAdminAuthenticated s) (reports s) (reportStats s) b (error s) (ls_admin s) (ad_api s).
Definition set_error (s : AdminState) (e : option string) : AdminState :=
  mkAdmin (isAdminAuthenticated s) (reports s) (reportStats s) (isLoading s) e (ls_admin s) (ad_api s).

(** [loginAdmin(passcode)]. *)
Definition loginAdmin (passcode : string) (s : AdminState) : AdminState * bool :=
  if String.eqb passcode ADMIN_PASSCODE then
    (mkAdmin true (reports s) (reportStats s) (isLoading s) (error s) (Some "true") (ad_api s), true)
  else (s, false).

(** [setIsAdminAuthenticated(b)]. *)
Definition set_authenticated (s : AdminState) (b : bool) : AdminState :=
  mkAdmin b (reports s) (reportStats s) (isLoading s) (error s) (ls_admin s) (ad_api s).

(** [logoutAdmin()]. *)
Definition logoutAdmin (s : AdminState) : AdminState :=
  mkAdmin false [] JNull (isLoading s) (error s) None (ad_api s).

(** The object literal of [addReport], [loadReports]: [phone || ''];
    reading a field of [null] throws. *)
Definition format_report (j : Json) : option Report :=
  match j with
  | JNull => None
  | _ =>
      Some (mkReport (field j "id") (field j "name") (field j "email")
              (Some (match field j "phone" with
                     | Some p => if json_truthy p then p else JStr ""
                     | None => JStr ""
                     end))
              (field j "subject") (field j "description") (field j "files")
              (field j "created_at") (field j "updated_at") (field j "status"))
  end.

(** [apiReports.map(...)] on an array: [inl] is the [TypeError] message
    (V8's). *)
Fixpoint format_list (l : list Json) : string + list Report :=
  match l with
  | [] => inr []
  | x :: r =>
      match format_report x with
      | None => inl "Cannot read properties of null (reading 'id')"
      | Some rep => match format_list r with inl m => inl m | inr reps => inr (rep :: reps) end
      end
  end.

(** [apiReports.map(...)] on any JSON value. *)
Definition format_all (j : Json) : string + list Report :=
  match j with
  | JArr xs => format_list xs
  | JNull => inl "Cannot read properties of null (reading 'map')"
  | _ => inl "apiReports.map is not a function"
  end.

Definition report_create (d : ReportData) : Json :=
  JObj [("name", JStr (d_name d)); ("email", JStr (d_email d)); ("phone", JStr (d_phone d));
        ("subject", JStr (d_subject d)); ("description", JStr (d_description d));
        ("files", d_files d)].

(** [report.id === reportId]. *)
Definition report_is (rep : Report) (reportId : Z) : bool :=
  match r_id rep with Some (JNum z) => Z.eqb z reportId | _ => false end.

(** [loadReportStats()]: failures are only logged. *)
Definition loadReportStats (fuel : nat) (srv : Server) (s : AdminState) : AdminState * Res :=
  let '(st1, r) := getReportStats fuel srv (ad_api s) in
  let s1 := with_api s st1 in
  match r with
  | Ok stats => (set_stats s1 stats, Ok JNull)
  | Fail _ => (s1, Ok JNull)
  | Stuck => (s1, Stuck)
  end.

(** The common tail: [await loadReportStats()], then [finally]. *)
Definition finish_with_stats (fuel : nat) (srv : Server) (s : AdminState) : AdminState * Res :=
  let '(s1, r) := loadReportStats fuel srv s in
  match r with
  | Stuck => (s1, Stuck)
  | _ => (set_loading s1 false, Ok JNull)
  end.

(** The common [catch] (set the message, rethrow) and [finally]. *)
Definition fail_with (s : AdminState) (e : JsError) : AdminState * Res :=
  (set_loading (set_error s (Some (err_msg e))) false, Fail e).

(** [addReport(reportData)]. *)
Definition addReport (fuel : nat) (srv : Server) (d : ReportData) (s : AdminState)
  : AdminState * Res :=
  let s0 := set_error (set_loading s true) None in
  let '(st1, r) := createReport fuel srv (ad_api s0) (report_create d) in
  let s1 := with_api s0 st1 in
  match r with
  | Ok newReport =>
      match format_report newReport with
      | Some rep => finish_with_stats fuel srv (set_reports s1 (rep :: reports s1))
      | None => fail_with s1 (mkErr KTypeError "Cannot read properties of null (reading 'id')")
      end
  | Fail e => fail_with s1 e
  | Stuck => (s1, Stuck)
  end.

(** [updateReportStatus(reportId, status)]. The fields of the response
    are read inside the [setReports] updater. With a [null] response and
    a report of that id, that updater throws while React renders the
    provider; this model does not follow the render and reads [null]
    there as an object without fields, so it describes the provider only
    for a response that is not [null]. *)
Definition updateReportStatus (fuel : nat) (srv : Server) (reportId : Z) (status : string)
    (s : AdminState) : AdminState * Res :=
  let s0 := set_error (set_loading s true) None in
  let '(st1, r) := ApiService.updateReportStatus fuel srv (ad_api s0) reportId status in
  let s1 := with_api s0 st1 in
  match r with
  | Ok updatedReport =>
      finish_with_stats fuel srv
        (set_reports s1
           (map (fun rep =>
                   if report_is rep reportId then
                     mkReport (r_id rep) (r_name rep) (r_email rep) (r_phone rep)
                              (r_subject rep) (r_description rep) (r_files rep)
                              (r_created_at rep) (field updatedReport "updated_at")
                              (field updatedReport "status")
                   else rep)
                (reports s1)))
  | Fail e => fail_with s1 e
  | Stuck => (s1, Stuck)
  end.

(** [deleteReport(reportId)]. *)
Definition deleteReport (fuel : nat) (srv : Server) (reportId : Z) (s : AdminState)
  : AdminState * Res :=
  let s0 := set_error (set_loading s true) None in
  let '(st1, r) := ApiService.deleteReport fuel srv (ad_api s0) reportId in
  let s1 := with_api s0 st1 in
  match r with
  | Ok _ =>
      finish_with_stats fuel srv
        (set_reports s1 (filter (fun rep => negb (report_is rep reportId)) (reports s1)))
  | Fail e => fail_with s1 e
  | Stuck => (s1, Stuck)
  end.

(** [loadReports(statusFilter?, search?)]: errors are not rethrown. *)
Definition loadReports (fuel : nat) (srv : Server) (statusFilter search : option string)
    (s : AdminState) : AdminState * Res :=
  let s0 := set_error (set_loading s true) None in
  let '(st1, r) := getAllReports fuel srv (ad_api s0) statusFilter search in
  let s1 := with_api s0 st1 in
  match r with
  | Ok apiReports =>
      match format_all apiReports with
      | inr formatted => (set_loading (set_reports s1 formatted) false, Ok JNull)
      | inl m => (set_loading (set_reports (set_error s1 (Some m)) []) false, Ok JNull)
      end
  | Fail e => (set_loading (set_reports (set_error s1 (Some (err_msg e))) []) false, Ok JNull)
  | Stuck => (s1, Stuck)
  end.

End AdminProvider.

(* ------------------------------------------------------------------ *)
(** ** contexts/ChatContext.tsx *)

Module ChatProvider.

(** JavaScript strings of the chat layer, as sequences of UTF-16 code
    units: [slice], [startsWith] and [===] work on code units. *)
Definition jstr := list N.

(** An ASCII literal as a JavaScript string. *)
Definition js (s : string) : jstr := map N_of_ascii (list_ascii_of_string s).

Fixpoint jeqb (a b : jstr) : bool :=
  match a, b with
  | [], [] => true
  | x :: a', y :: b' => N.eqb x y && jeqb a' b'
  | _, _ => false
  end.

(** [s.startsWith(p)]. *)
Fixpoint starts_with (p s : jstr) : bool :=
  match p, s with
  | [], _ => true
  | x :: p', y :: s' => N.eqb x y && starts_with p' s'
  | _ :: _, [] => false
  end.

(** [s.slice(0, n)]. *)
Definition slice0 (s : jstr) (n : nat) : jstr := firstn n s.

Definition is_local (id : jstr) : bool := starts_with (js "local-") id.

(** [Number.MAX_SAFE_INTEGER]. A JSON integer of at most this magnitude
    is held exactly by a JavaScript number. *)
Definition MAX_SAFE_INTEGER : Z := 9007199254740991.

(** [n.toString()] on a server id: its decimal digits, which is what
    JavaScript prints for an integer held exactly below 10^21, so for
    every id within [MAX_SAFE_INTEGER] (larger ids are rounded by
    [JSON.parse], and from 10^21 on printed with an exponent). *)
Definition toString (z : Z) : jstr := js (Z_to_string z).

Definition is_digit (c : N) : bool := (48 <=? c)%N && (c <=? 57)%N.

Fixpoint digits_val (acc : Z) (seen : bool) (s : jstr) : option Z :=
  match s with
  | [] => if seen then Some acc else None
  | c :: s' =>
      if is_digit c then digits_val (acc * 10 + (Z.of_N c - 48)) true s'
      else if seen then Some acc else None
  end.

(** [parseInt(s)] on the ids handled here (no leading blanks): an optional
    sign and the longest run of decimal digits; [None] is [NaN]. The
    value is exact, as in JavaScript for results within
    [MAX_SAFE_INTEGER] (larger ones are rounded to a double there). *)
Definition parseInt (s : jstr) : option Z :=
  match s with
  | c :: s' =>
      if N.eqb c 45 then option_map Z.opp (digits_val 0 false s')
      else if N.eqb c 43 then digits_val 0 false s'
      else digits_val 0 false s
  | [] => None
  end.

(** A [Date]: [new Date()] at a given clock value, or [new Date(s)] on a
    server timestamp. *)
Inductive Date :=
| DNow (ms : Z)
| DParsed (s : jstr).

Inductive Role := RUser | RAssistant.

(** types/index.ts: [Message] and [ChatHistory]. *)
Record Message := mkMsg {
  m_id : jstr;
  m_content : jstr;
  m_role : Role;
  m_timestamp : Date }.

Record ChatHistory := mkChat {
  h_id : jstr;
  h_title : jstr;
  h_messages : list Message;
  h_createdAt : Date;
  h_updatedAt : Date }.

(** services/api.ts: [Message] and [ChatSession] as the server sends them. *)
Record ApiMessage := mkApiMsg {
  am_id : Z;
  am_content : jstr;
  am_is_user_message : bool;
  am_timestamp : jstr }.

Record ChatSession := mkSession {
  cs_id : Z;
  cs_title : jstr;
  cs_created_at : jstr;
  cs_updated_at : jstr }.

Definition convertMessage (msg : ApiMessage) : Message :=
  mkMsg (toString (am_id msg)) (am_content msg)
        (if am_is_user_message msg then RUser else RAssistant)
        (DParsed (am_timestamp msg)).

(** [convertApiChatToLocal(session, messages = [])]. *)
Definition convertApiChatToLocal (session : ChatSession) (messages : list ApiMessage) : ChatHistory :=
  mkChat (toString (cs_id session)) (cs_title session)
         (map convertMessage messages)
         (DParsed (cs_created_at session)) (DParsed (cs_updated_at session)).

(** The provider's React state. *)
Record ChatState := mkState {
  chatHistories : list ChatHistory;
  currentChat : option ChatHistory;
  isLoading : bool }.

Definition empty_state : ChatState := mkState [] None false.

(** The apiService methods the provider calls ([parseInt] applied). *)
Inductive ApiCall :=
| GetChatSessions
| CreateChatSession (title : jstr)
| GetChatMessages (sid : option Z)
| SendMessage (sid : option Z) (content : jstr)
| DeleteChatSession (sid : option Z)
| UpdateSessionTitle (sid : option Z).

(** Observable effects: a network call, or a timer of [ms] milliseconds. *)
Inductive Effect :=
| Net (c : ApiCall)
| Sleep (ms : Q).

(** The backend as seen through apiService: the value each call resolves
    to, [None] when it rejects. *)
Record ChatServer := mkServer {
  sv_sessions : option (list ChatSession);
  sv_create : jstr -> option ChatSession;
  sv_messages : option Z -> option (list ApiMessage);
  sv_send : option Z -> jstr -> option unit;
  sv_delete : option Z -> option unit;
  sv_title : option Z -> option jstr }.

(** The other inputs of an operation: [Date.now()], the two [uuidv4()]
    values and the two [Math.random()] draws of [sendMessage]. *)
Record Env := mkEnv {
  e_now : Z;
  e_uuid_user : jstr;
  e_uuid_ai : jstr;
  e_rand_pick : Q;
  e_rand_delay : Q }.

(** *** A state / exception / effect-log monad for the async callbacks *)

Definition M (A : Type) := ChatState -> ChatState * list Effect * option A.

Definition ret {A} (a : A) : M A := fun s => (s, [], Some a).

Definition bind {A B} (m : M A) (f : A -> M B) : M B :=
  fun s =>
    let '(s1, l1, r) := m s in
    match r with
    | Some a => let '(s2, l2, r2) := f a s1 in (s2, app l1 l2, r2)
    | None => (s1, l1, None)
    end.

Notation "x <- m ;; k" := (bind m (fun x => k))
  (at level 61, m at next level, right associativity).
Notation "m ;; k" := (bind m (fun _ => k)) (at level 61, right associativity).

Definition get : M ChatState := fun s => (s, [], Some s).

(** [setCurrentChat(prev => f(prev))]. *)
Definition update_current (f : option ChatHistory -> option ChatHistory) : M unit :=
  fun s => (mkState (chatHistories s) (f (currentChat s)) (isLoading s), [], Some tt).

Definition setCurrentChat (c : option ChatHistory) : M unit := update_current (fun _ => c).

(** [setChatHistories(prev => f(prev))]. *)
Definition setChatHistories (f : list ChatHistory -> list ChatHistory) : M unit :=
  fun s => (mkState (f (chatHistories s)) (currentChat s) (isLoading s), [], Some tt).

Definition setIsLoading (b : bool) : M unit :=
  fun s => (mkState (chatHistories s) (currentChat s) b, [], Some tt).

(** [await apiService.m(...)]: the call is issued, then resolves or throws. *)
Definition call {A} (c : ApiCall) (answer : option A) : M A :=
  fun s => (s, [Net c], answer).

Definition sleep (ms : Q) : M unit := fun s => (s, [Sleep ms], Some tt).

(** [try { m } catch { h }]. *)
Definition try_catch {A} (m : M A) (h : M A) : M A :=
  fun s =>
    let '(s1, l1, r) := m s in
    match r with
    | Some a => (s1, l1, Some a)
    | None => let '(s2, l2, r2) := h s1 in (s2, app l1 l2, r2)
    end.

(** [try { m } finally { f }] where [f] does not throw. *)
Definition try_finally {A} (m : M A) (f : M unit) : M A :=
  fun s =>
    let '(s1, l1, r) := m s in
    let '(s2, l2, _) := f s1 in (s2, app l1 l2, r).

(** [prev.map(h => h.id === id ? x : h)]. *)
Definition replace_by_id (id : jstr) (x : ChatHistory) (l : list ChatHistory) : list ChatHistory :=
  map (fun h => if jeqb (h_id h) id then x else h) l.

Definition find_by_id (id : jstr) (l : list ChatHistory) : option ChatHistory :=
  find (fun h => jeqb (h_id h) id) l.

Definition NEW_CONVERSATION : jstr := js "New Conversation".

(** The local-only chat built by [createNewChat] and [sendMessage]. *)
Definition local_chat (env : Env) : ChatHistory :=
  mkChat (app (js "local-") (toString (e_now env))) NEW_CONVERSATION []
         (DNow (e_now env)) (DNow (e_now env)).

(** [loadChatSessions]; [currentChat] is the value captured by the
    callback, i.e. the state when it runs. *)
Definition loadChatSessions (isAuthenticated : bool) (srv : ChatServer) : M unit :=
  s0 <- get ;;
  let currentChat0 := currentChat s0 in
  if negb isAuthenticated then
    setChatHistories (fun _ => []) ;; setCurrentChat None
  else
    try_finally
      (try_catch
         (setIsLoading true ;;
          sessions <- call GetChatSessions (sv_sessions srv) ;;
          let histories := map (fun session => convertApiChatToLocal session []) sessions in
          setChatHistories (fun _ => histories) ;;
          match histories, sessions with
          | mostRecent :: _, session0 :: _ =>
              match currentChat0 with
              | None =>
                  let sid := parseInt (h_id mostRecent) in
                  messages <- call (GetChatMessages sid) (sv_messages srv sid) ;;
                  setCurrentChat (Some (convertApiChatToLocal session0 messages))
              | Some _ => ret tt
              end
          | _, _ => ret tt
          end)
         (ret tt))
      (setIsLoading false).

(** The [useEffect] on [isAuthenticated]: run when it changes. *)
Definition authEffect (isAuthenticated : bool) (srv : ChatServer) : M unit :=
  if isAuthenticated then loadChatSessions isAuthenticated srv
  else
    setChatHistories (filter (fun chat => is_local (h_id chat))) ;;
    update_current (fun prev =>
      match prev with
      | Some p => if is_local (h_id p) then Some p else None
      | None => None
      end).

Definition createNewChat (isAuthenticated : bool) (srv : ChatServer) (env : Env) : M unit :=
  if negb isAuthenticated then
    let newChat := local_chat env in
    setChatHistories (cons newChat) ;; setCurrentChat (Some newChat)
  else
    try_catch
      (session <- call (CreateChatSession NEW_CONVERSATION) (sv_create srv NEW_CONVERSATION) ;;
       let newChat := convertApiChatToLocal session [] in
       setChatHistories (cons newChat) ;; setCurrentChat (Some newChat))
      (ret tt).

Definition with_messages (c : ChatHistory) (ms : list Message) : ChatHistory :=
  mkChat (h_id c) (h_title c) ms (h_createdAt c) (h_updatedAt c).

Definition selectChat (isAuthenticated : bool) (srv : ChatServer) (chatId : jstr) : M unit :=
  s0 <- get ;;
  let chatHistories0 := chatHistories s0 in
  if is_local chatId then
    match find_by_id chatId chatHistories0 with
    | Some localChat => setCurrentChat (Some localChat)
    | None => ret tt
    end
  else if negb isAuthenticated then ret tt
  else
    try_finally
      (try_catch
         (setIsLoading true ;;
          let sessionId := parseInt chatId in
          messages <- call (GetChatMessages sessionId) (sv_messages srv sessionId) ;;
          match find_by_id chatId chatHistories0 with
          | Some session => setCurrentChat (Some (with_messages session (map convertMessage messages)))
          | None => ret tt
          end)
         (ret tt))
      (setIsLoading false).

(** The three canned replies of anonymous mode (emoji left out). *)
Definition mockResponses : list jstr := [
  js "Hello! I'm Sakhi, your AI assistant!

**What I can help you with:**
- Answer questions on various topics
- Help with coding and programming
- Provide explanations and tutorials
- Assist with creative writing and ideas

To unlock full features and save your conversations, consider signing in! Your chats will be preserved across sessions.";
  js "Hi there! Welcome to Sakhi! I'm here to help you with whatever you need.

**I can assist with:**
- General knowledge questions
- Programming and technical help
- Creative writing and brainstorming
- Learning new concepts

For the best experience, consider creating an account to save your conversation history!";
  js "Hey! Great to meet you! I'm Sakhi, your friendly AI companion.

**Here's what I can do:**
- Answer complex questions with detailed explanations
- Help with problem-solving and analysis
- Provide writing assistance and feedback
- Code review and programming help

Create an account to save your chat history and unlock premium features!" ].

(** [mockResponses[i]]; [undefined] out of range. *)
Definition pick (i : Z) : jstr :=
  if i <? 0 then js "undefined" else nth (Z.to_nat i) mockResponses (js "undefined").

(** The speculative title: [content.slice(0, 30) + '...']. *)
Definition speculative_title (content : jstr) : jstr := app (slice0 content 30) (js "...").

(** The optimistic [updatedChat]. *)
Definition optimistic (targetChat : ChatHistory) (userMessage : Message) (content : jstr) (now : Z)
  : ChatHistory :=
  mkChat (h_id targetChat)
         (if Nat.eqb (length (h_messages targetChat)) 0 then speculative_title content
          else h_title targetChat)
         (app (h_messages targetChat) [userMessage])
         (h_createdAt targetChat) (DNow now).

(** The dispatch step of [sendMessage] (the body of its [try]). *)
Definition dispatch (isAuthenticated : bool) (srv : ChatServer) (env : Env)
    (targetChat updatedChat : ChatHistory) (content : jstr) : M unit :=
  if isAuthenticated && negb (is_local (h_id targetChat)) then
    let sid := parseInt (h_id targetChat) in
    _ <- call (SendMessage sid content) (sv_send srv sid content) ;;
    updatedMessages <- call (GetChatMessages sid) (sv_messages srv sid) ;;
    let finalChat := mkChat (h_id updatedChat) (h_title updatedChat)
                            (map convertMessage updatedMessages)
                            (h_createdAt updatedChat) (DNow (e_now env)) in
    setCurrentChat (Some finalChat) ;;
    setChatHistories (replace_by_id (h_id targetChat) finalChat) ;;
    if Nat.eqb (length (h_messages targetChat)) 0 then
      try_catch
        (title <- call (UpdateSessionTitle sid) (sv_title srv sid) ;;
         let chatWithTitle := mkChat (h_id finalChat) title (h_messages finalChat)
                                     (h_createdAt finalChat) (h_updatedAt finalChat) in
         setCurrentChat (Some chatWithTitle) ;;
         setChatHistories (replace_by_id (h_id targetChat) chatWithTitle))
        (ret tt)
    else ret tt
  else
    let randomResponse := pick (Qfloor (e_rand_pick env * 3)) in
    sleep (1000 + e_rand_delay env * 2000)%Q ;;
    let aiMessage := mkMsg (e_uuid_ai env) randomResponse RAssistant (DNow (e_now env)) in
    let finalChat := mkChat (h_id updatedChat) (h_title updatedChat)
                            (app (h_messages updatedChat) [aiMessage])
                            (h_createdAt updatedChat) (DNow (e_now env)) in
    setCurrentChat (Some finalChat) ;;
    setChatHistories (replace_by_id (h_id targetChat) finalChat).

(** Target resolution: the current chat, or a new one ([None]: creating
    the remote session failed and [sendMessage] returns). *)
Definition resolveTarget (isAuthenticated : bool) (srv : ChatServer) (env : Env)
    (currentChat0 : option ChatHistory) : M (option ChatHistory) :=
  match currentChat0 with
  | Some c => ret (Some c)
  | None =>
      if isAuthenticated then
        try_catch
          (session <- call (CreateChatSession NEW_CONVERSATION) (sv_create srv NEW_CONVERSATION) ;;
           let t := convertApiChatToLocal session [] in
           setChatHistories (cons t) ;; setCurrentChat (Some t) ;; ret (Some t))
          (ret None)
      else
        let t := local_chat env in
        setChatHistories (cons t) ;; setCurrentChat (Some t) ;; ret (Some t)
  end.

(** The optimistic append of [sendMessage]: [updatedChat] shown at once. *)
Definition optimisticAppend (env : Env) (targetChat : ChatHistory) (content : jstr)
  : ChatHistory :=
  optimistic targetChat (mkMsg (e_uuid_user env) content RUser (DNow (e_now env)))
             content (e_now env).

Definition sendMessage (isAuthenticated : bool) (srv : ChatServer) (env : Env) (content : jstr)
  : M unit :=
  s0 <- get ;;
  tgt <- resolveTarget isAuthenticated srv env (currentChat s0) ;;
  match tgt with
  | None => ret tt
  | Some targetChat =>
      let updatedChat := optimisticAppend env targetChat content in
      setCurrentChat (Some updatedChat) ;;
      setChatHistories (replace_by_id (h_id targetChat) updatedChat) ;;
      try_catch
        (dispatch isAuthenticated srv env targetChat updatedChat content)
        (setCurrentChat (Some targetChat) ;;
         setChatHistories (replace_by_id (h_id targetChat) targetChat))
  end.

Definition deleteChat (isAuthenticated : bool) (srv : ChatServer) (chatId : jstr) : M unit :=
  s0 <- get ;;
  let updatedHistories := filter (fun h => negb (jeqb (h_id h) chatId)) (chatHistories s0) in
  let wasCurrent := match currentChat s0 with Some c => jeqb (h_id c) chatId | None => false end in
  let moveCurrent :=
    if wasCurrent then
      setCurrentChat (match updatedHistories with h :: _ => Some h | [] => None end)
    else ret tt in
  if is_local chatId then
    setChatHistories (fun _ => updatedHistories) ;; moveCurrent
  else if negb isAuthenticated then ret tt
  else
    try_catch
      (_ <- call (DeleteChatSession (parseInt chatId)) (sv_delete srv (parseInt chatId)) ;;
       setChatHistories (fun _ => updatedHistories) ;; moveCurrent)
      (ret tt).

(** *** [loadChatSessions] across its first [await]

    The authenticated branch of [loadChatSessions], cut where it waits
    for [getChatSessions]: other callbacks and effects may run in
    between. *)

(** A call issued, not yet settled. *)
Definition issue (c : ApiCall) : M unit := fun s => (s, [Net c], Some tt).

(** The awaited call settles: it resolves to the answer, or throws. *)
Definition settle {A} (answer : option A) : M A := fun s => (s, [], answer).

(** Up to the first [await]. *)
Definition loadChatSessions_start : M unit :=
  setIsLoading true ;; issue GetChatSessions.

(** From the first [await] on, once [getChatSessions] settles with
    [answer]; [currentChat0] is the value the callback captured. *)
Definition loadChatSessions_resume (srv : ChatServer) (currentChat0 : option ChatHistory)
    (answer : option (list ChatSession)) : M unit :=
  try_finally
    (try_catch
       (sessions <- settle answer ;;
        let histories := map (fun session => convertApiChatToLocal session []) sessions in
        setChatHistories (fun _ => histories) ;;
        match histories, sessions with
        | mostRecent :: _, session0 :: _ =>
            match currentChat0 with
            | None =>
                let sid := parseInt (h_id mostRecent) in
                messages <- call (GetChatMessages sid) (sv_messages srv sid) ;;
                setCurrentChat (Some (convertApiChatToLocal session0 messages))
            | Some _ => ret tt
            end
        | _, _ => ret tt
        end)
       (ret tt))
    (setIsLoading false).

End ChatProvider.

(* ------------------------------------------------------------------ *)
(** ** The application as a transition system

    Each step is one user operation run to completion, a change of
    [isAuthenticated] (login or logout) with the provider's effect, or a
    re-run of that effect while authenticated ([loadChatSessions] is
    re-created, and the effect re-fired, whenever [currentChat] changes). *)

Module System.
Import ChatProvider.

Record World := mkWorld { w_auth : bool; w_chat : ChatState }.

(** The state left by a callback. *)
Definition run (m : M unit) (s : ChatState) : ChatState := fst (fst (m s)).

(** The effects issued by a callback. *)
Definition effects (m : M unit) (s : ChatState) : list Effect := snd (fst (m s)).

Inductive Op :=
| OpCreate
| OpSelect (chatId : jstr)
| OpSend (content : jstr)
| OpDelete (chatId : jstr).

Definition run_op (auth : bool) (srv : ChatServer) (env : Env) (op : Op) : M unit :=
  match op with
  | OpCreate => createNewChat auth srv env
  | OpSelect id => selectChat auth srv id
  | OpSend content => sendMessage auth srv env content
  | OpDelete id => deleteChat auth srv id
  end.

Inductive step : World -> World -> Prop :=
| step_login : forall cs srv,
    step (mkWorld false cs) (mkWorld true (run (authEffect true srv) cs))
| step_logout : forall cs srv,
    step (mkWorld true cs) (mkWorld false (run (authEffect false srv) cs))
| step_reload : forall cs srv,
    step (mkWorld true cs) (mkWorld true (run (loadChatSessions true srv) cs))
| step_op : forall auth cs srv env op,
    step (mkWorld auth cs) (mkWorld auth (run (run_op auth srv env op) cs)).

(** Worlds reachable from the first render: anonymous, nothing loaded. *)
Inductive reachable : World -> Prop :=
| reach_init : reachable (mkWorld false empty_state)
| reach_step : forall w w', reachable w -> step w w' -> reachable w'.

(** Every session the world holds: the Directory and the current one. *)
Definition sessions (cs : ChatState) : list ChatHistory :=
  match currentChat cs with
  | Some c => c :: chatHistories cs
  | None => chatHistories cs
  end.

Definition is_net (e : Effect) : bool := match e with Net _ => true | Sleep _ => false end.

End System.

(* ------------------------------------------------------------------ *)
(** ** The receiving side of a query string

    The application/x-www-form-urlencoded parser of the URL Standard, as
    the backend applies it to the query of a request: split on "&", drop
    empty pieces, split each at its first "=", read "+" as a space and
    decode percent escapes. *)

Module FormUrlencoded.

Fixpoint split_on (c : ascii) (s : string) : list string :=
  match s with
  | EmptyString => [EmptyString]
  | String a s' =>
      if Ascii.eqb a c then EmptyString :: split_on c s'
      else match split_on c s' with
           | x :: r => String a x :: r
           | [] => [String a EmptyString]
           end
  end.

Fixpoint split_first (c : ascii) (s : string) : string * string :=
  match s with
  | EmptyString => (EmptyString, EmptyString)
  | String a s' =>
      if Ascii.eqb a c then (EmptyString, s')
      else let '(n, v) := split_first c s' in (String a n, v)
  end.

Fixpoint plus_to_space (s : string) : string :=
  match s with
  | EmptyString => EmptyString
  | String a s' => String (if Ascii.eqb a "+" then " "%char else a) (plus_to_space s')
  end.

Definition hex_val (a : ascii) : option nat :=
  let n := nat_of_ascii a in
  if Nat.leb 48 n && Nat.leb n 57 then Some (n - 48)%nat
  else if Nat.leb 65 n && Nat.leb n 70 then Some (n - 55)%nat
  else if Nat.leb 97 n && Nat.leb n 102 then Some (n - 87)%nat
  else None.

Fixpoint percent_decode (s : string) : string :=
  match s with
  | EmptyString => EmptyString
  | String a s' =>
      if Ascii.eqb a "%" then
        match s' with
        | String h (String l s'') =>
            match hex_val h, hex_val l with
            | Some x, Some y => String (ascii_of_nat (x * 16 + y)) (percent_decode s'')
            | _, _ => String a (percent_decode s')
            end
        | _ => String a (percent_decode s')
        end
      else String a (percent_decode s')
  end.

Definition parse (qs : string) : list (string * string) :=
  map (fun piece =>
         let '(n, v) := split_first "=" piece in
         (percent_decode (plus_to_space n), percent_decode (plus_to_space v)))
      (filter (fun piece => negb (String.eqb piece "")) (split_on "&" qs)).

End FormUrlencoded.

(* ------------------------------------------------------------------ *)
(** ** Concrete backends and states used by the properties *)

Module ApiScenarios.
Import ApiService.

(** A backend on which both tokens have expired: every call gets 401. *)
Definition srv_expired : Server :=
  fun _ _ => Http 401 (Some (JObj [("detail", JStr "Could not validate credentials")])).

(** A logged-in store: access token "a1", refresh token "r1". *)
Definition st_logged_in : ApiState := init_api (Some "a1") (Some "r1").

(** A backend whose refresh endpoint rejects its first call only; every
    other endpoint rejects the old access token "a1". *)
Definition srv_refresh_once : Server :=
  fun hist c =>
    if String.eqb (fc_url c) (API_BASE_URL ++ "/auth/refresh") then
      if existsb (fun c' => String.eqb (fc_url c') (API_BASE_URL ++ "/auth/refresh")) hist
      then Http 200 (Some (JObj [("access_token", JStr "a2"); ("refresh_token", JStr "r2")]))
      else Http 401 (Some (JObj [("detail", JStr "Could not validate credentials")]))
    else match fc_auth c with
         | Some h => if String.eqb h "Bearer a1" then Http 401 None else Http 200 (Some (JArr []))
         | None => Http 401 None
         end.

(** A backend whose refresh endpoint fails with a server error. *)
Definition srv_refresh_500 : Server :=
  fun _ c =>
    if String.eqb (fc_url c) (API_BASE_URL ++ "/auth/refresh") then Http 500 None
    else Http 401 None.

(** A backend that is up but rejects the profile fetch with 500. *)
Definition srv_me_500 : Server := fun _ _ => Http 500 None.

(** A backend that is not running, as Chrome reports it. *)
Definition srv_unreachable : Server := fun _ _ => NetworkError "Failed to fetch".

(** A backend that answers 404 with a [detail]. *)
Definition srv_404 : Server :=
  fun _ _ => Http 404 (Some (JObj [("detail", JStr "Session not found")])).

(** A backend that rejects the first call with 401, accepts the refresh
    with a new pair, then serves the retried call. *)
Definition srv_refresh_ok : Server :=
  fun h _ =>
    match List.length h with
    | O => Http 401 None
    | S O => Http 200 (Some (JObj [("access_token", JStr "a2"); ("refresh_token", JStr "r2")]))
    | _ => Http 200 (Some (JArr []))
    end.

(** A running backend: login hands out the pair "a1"/"r1", registration
    and the profile return a user, anything else is a 404. *)
Definition user_u : Json := JObj [("id", JNum 1); ("email", JStr "u@example.org"); ("username", JStr "u")].

Definition srv_auth : Server :=
  fun _ c =>
    if String.eqb (fc_url c) (API_BASE_URL ++ "/auth/login")
    then Http 200 (Some (JObj [("access_token", JStr "a1"); ("refresh_token", JStr "r1");
                               ("token_type", JStr "bearer")]))
    else if String.eqb (fc_url c) (API_BASE_URL ++ "/auth/register") then Http 200 (Some user_u)
    else if String.eqb (fc_url c) (API_BASE_URL ++ "/auth/me") then Http 200 (Some user_u)
    else Http 404 None.

(** A backend that goes down right after accepting a registration. *)
Definition srv_register_only : Server :=
  fun _ c =>
    if String.eqb (fc_url c) (API_BASE_URL ++ "/auth/register") then Http 200 (Some user_u)
    else NetworkError "Failed to fetch".

End ApiScenarios.

Module AdminScenarios.
Import ApiService AdminProvider.

Definition rep_of (id : Z) (status : string) : Report :=
  mkReport (Some (JNum id)) (Some (JStr "A")) (Some (JStr "a@example.org")) (Some (JStr ""))
    (Some (JStr "S")) (Some (JStr "D")) (Some (JArr [])) (Some (JStr "t0")) (Some (JStr "t0"))
    (Some (JStr status)).

(** An admin session holding reports 1 and 2. *)
Definition admin12 : AdminState :=
  mkAdmin true [rep_of 1 "pending"; rep_of 2 "pending"] JNull false None (Some "true") (init_api None None).

Definition stats_j : Json := JObj [("total", JNum 2); ("pending", JNum 2)].
Definition new_report : Json :=
  JObj [("id", JNum 3); ("name", JStr "B"); ("email", JStr "b@example.org"); ("phone", JNull);
        ("subject", JStr "S"); ("description", JStr "D"); ("files", JArr []);
        ("created_at", JStr "t1"); ("updated_at", JStr "t1"); ("status", JStr "pending")].
Definition updated_1 : Json := JObj [("id", JNum 1); ("status", JStr "resolved"); ("updated_at", JStr "t2")].

(** A backend serving the report endpoints. *)
Definition srv_admin : Server :=
  fun _ c =>
    if String.eqb (fc_url c) (API_BASE_URL ++ "/api/reports/stats/summary") then Http 200 (Some stats_j)
    else if String.eqb (fc_url c) (API_BASE_URL ++ "/api/reports/1") then
      Http 200 (Some (JObj [("message", JStr "Report deleted")]))
    else if String.eqb (fc_url c) (API_BASE_URL ++ "/api/reports/1/status") then Http 200 (Some updated_1)
    else if String.eqb (fc_url c) (API_BASE_URL ++ "/api/reports") then Http 201 (Some new_report)
    else Http 404 None.

(** A backend answering every call with 204 No Content. *)
Definition srv_no_content : Server := fun _ _ => Http 204 None.

(** A backend whose report list has a [null] entry. *)
Definition srv_list_null : Server := fun _ _ => Http 200 (Some (JArr [new_report; JNull])).

Definition data_b : ReportData := mkData "B" "b@example.org" "" "S" "D" (JArr []).

End AdminScenarios.

Module ChatScenarios.
Import ChatProvider System.

(** A small concrete setting: remote session 5 current, the backend
    holding one user message and one reply. *)
Definition session5 : ChatSession := mkSession 5 (js "Chat") (js "2025-01-01") (js "2025-01-01").
Definition chat5 : ChatHistory := convertApiChatToLocal session5 [].
Definition server_log5 : list ApiMessage :=
  [mkApiMsg 1 (js "Hello") true (js "t1"); mkApiMsg 2 (js "Hi!") false (js "t2")].
Definition srv_ok : ChatServer :=
  mkServer (Some [session5]) (fun _ => Some session5) (fun _ => Some server_log5)
           (fun _ _ => Some tt) (fun _ => Some tt) (fun _ => Some (js "Greetings")).
Definition srv_down : ChatServer :=
  mkServer None (fun _ => None) (fun _ => None) (fun _ _ => None) (fun _ => None) (fun _ => None).
Definition env0 : Env := mkEnv 1000 (js "u1") (js "u2") (1 # 2) (1 # 4).
Definition state5 : ChatState := mkState [chat5] (Some chat5) false.

(** An anonymous user's state after "New chat": one local session, current. *)
Definition state_anon : ChatState := run (createNewChat false srv_down env0) empty_state.

(** An older remote session 7, loaded with the log of session 5. *)
Definition chat7 : ChatHistory :=
  convertApiChatToLocal (mkSession 7 (js "Older") (js "2025-01-02") (js "2025-01-02")) server_log5.

(** The situation of C9 arises after deleting the current session: the
    next one becomes current with the Directory's empty message list. *)
Definition state_after_delete : ChatState :=
  run (deleteChat true srv_ok (toString 7)) (mkState [chat7; chat5] (Some chat7) false).

(** Every session held is a local one. *)
Definition all_local (cs : ChatState) : Prop :=
  forall c, In c (sessions cs) -> is_local (h_id c) = true.

End ChatScenarios.

(* ================================================================== *)
(** * Properties *)

Module ExecutorFacts.
Import ApiService ApiScenarios.

Lemma fetch_tokens srv st c :
  accessToken (fst (fetch srv st c)) = accessToken st /\
  ls_refresh (fst (fetch srv st c)) = ls_refresh st.
Proof. split; reflexivity. Qed.

(** While both tokens are held and the backend answers 401 to everything,
    [request] re-enters [refreshToken], which re-enters [request] on the
    refresh endpoint: no fuel is ever enough. *)
Lemma request_refresh_recursion (n : nat) :
  (forall st ep o, js_truthy (accessToken st) = true -> truthy (ls_refresh st) = true ->
     snd (request n srv_expired st ep o) = Stuck) /\
  (forall st, js_truthy (accessToken st) = true -> truthy (ls_refresh st) = true ->
     snd (refreshToken n srv_expired st) = Stuck).
Proof.
  induction n as [|n [IHreq IHref]]; split; intros st.
  - reflexivity.
  - reflexivity.
  - intros ep o Ha Hr. cbn [request]. unfold fetch, srv_expired. cbn [accessToken ls_refresh].
    rewrite Ha, Hr. cbn [response_ok Z.leb andb Z.eqb].
    simpl (Z.eqb 401 401). cbn [andb].
    specialize (IHref (mkApi (accessToken st) (ls_access st) (ls_refresh st)
                          (app (calls st) [mkCall (API_BASE_URL ++ ep) (opt_method o)
                            (Some (bearer (accessToken st))) (opt_body o)])) Ha Hr).
    destruct (refreshToken n _ _) as [st2 r] eqn:E. simpl in IHref. subst r. reflexivity.
  - intros Ha Hr. cbn [refreshToken]. rewrite Hr. cbn [negb].
    specialize (IHreq st "/auth/refresh"
      (mkOptions "POST" (Some (JObj [("refresh_token", JStr match ls_refresh st with Some s => s | None => "" end)])))
      Ha Hr).
    destruct (request n _ _ _ _) as [st1 r] eqn:E. simpl in IHreq. subst r. reflexivity.
Qed.

(** Refresh failing with a non-401 status is handled as intended: one
    refresh call, the store cleared, "Authentication failed" surfaced. *)
Example request_refresh_500_clears :
  let '(st, r) := request 10 srv_refresh_500 st_logged_in "/chat/sessions" GET in
  refresh_calls st = 1%nat /\ r = Fail auth_failed /\
  accessToken st = Some JNull /\ ls_access st = None /\ ls_refresh st = None.
Proof. vm_compute. repeat split. Qed.

(** A single 401 from the refresh endpoint already gives three refresh
    calls for one request. *)
Example request_refresh_once_three_calls :
  let '(st, r) := request 10 srv_refresh_once st_logged_in "/chat/sessions" GET in
  refresh_calls st = 3%nat /\ r = Ok (JArr []).
Proof. vm_compute. split; reflexivity. Qed.

(** Claim C1 (code_bug). A request that gets 401 while an access token is
    attached and a refresh token is stored does not make exactly one
    refresh call: [refreshToken] goes through [request], whose own 401
    handling refreshes again. When the backend rejects the expired
    refresh token with 401, the request never returns, for any fuel; at
    fuel 21 it has made 10 refresh calls and the token store has never
    been cleared, so the caller never sees an authentication error. *)
Theorem C1_refresh_retry_loop :
  (forall fuel, snd (request fuel srv_expired st_logged_in "/chat/sessions" GET) = Stuck) /\
  (let st := fst (request 21 srv_expired st_logged_in "/chat/sessions" GET) in
   refresh_calls st = 10%nat /\ accessToken st = Some (JStr "a1") /\ ls_refresh st = Some "r1").
Proof.
  split.
  - intros fuel. apply (proj1 (request_refresh_recursion fuel)); reflexivity.
  - vm_compute. repeat split.
Qed.

End ExecutorFacts.

Module AuthFacts.
Import ApiService AuthProvider ApiScenarios.

Lemma js_truthy_stored (v : option string) : js_truthy (stored_value v) = truthy v.
Proof. destruct v as [s|]; [destruct s; reflexivity | reflexivity]. Qed.

(** Claim C10. [isAuthenticated] holds exactly when a (truthy) user
    profile and a truthy access token are both present; and when a
    stored access token's startup profile fetch fails, [checkAuth] leaves
    the provider unauthenticated with the token store cleared. *)
Theorem C10_authenticated_needs_user_and_token
    (fuel : nat) (srv : Server) (stored_access stored_refresh : option string) (e : JsError)
    (Htok : truthy stored_access = true)
    (Hfail : snd (getCurrentUser fuel srv (init_api stored_access stored_refresh)) = Fail e) :
  (forall a : AuthState,
     AuthProvider.isAuthenticated a = true <->
     (exists u, user a = Some u /\ json_truthy u = true) /\ js_truthy (accessToken (api a)) = true) /\
  (let a := checkAuth fuel srv (startup stored_access stored_refresh) in
   AuthProvider.isAuthenticated a = false /\ user a = None /\
   accessToken (api a) = Some JNull /\ ls_access (api a) = None /\ ls_refresh (api a) = None).
Proof.
  split.
  - intros [[u|] st]; unfold AuthProvider.isAuthenticated, ApiService.isAuthenticated; simpl.
    + rewrite andb_true_iff. split.
      * intros [Hu Ht]. eauto.
      * intros [[u' [[= <-] Hu]] Ht]. auto.
    + split; [discriminate | intros [[u' [Hu _]] _]; discriminate].
  - unfold checkAuth, startup. simpl (api _).
    unfold ApiService.isAuthenticated. simpl (accessToken _). rewrite js_truthy_stored, Htok.
    destruct (getCurrentUser fuel srv _) as [st' r] eqn:E. simpl in Hfail. subst r.
    repeat split.
Qed.

(** Witness: token "a1" stored, the backend answers 500 to [/auth/me]. *)
Lemma C10_witness :
  truthy (Some "a1") = true /\
  snd (getCurrentUser 5 srv_me_500 (init_api (Some "a1") (Some "r1")))
    = Fail (mkErr KError "HTTP error! status: 500") /\
  AuthProvider.isAuthenticated (checkAuth 5 srv_me_500 (startup (Some "a1") (Some "r1"))) = false.
Proof.
  assert (H : snd (getCurrentUser 5 srv_me_500 (init_api (Some "a1") (Some "r1")))
              = Fail (mkErr KError "HTTP error! status: 500")) by (vm_compute; reflexivity).
  split; [reflexivity | split; [exact H |]].
  exact (proj1 (proj2 (C10_authenticated_needs_user_and_token 5 srv_me_500 (Some "a1") (Some "r1")
                        _ eq_refl H))).
Defined.

End AuthFacts.

Module ChatFacts.
Import ChatProvider System ChatScenarios.

Lemma jeqb_eq (a b : jstr) : jeqb a b = true <-> a = b.
Proof.
  revert b; induction a as [|x a IH]; intros [|y b]; simpl; try (split; congruence).
  rewrite andb_true_iff, N.eqb_eq, IH. split; [intros [-> ->]; reflexivity | intros [= -> ->]; auto].
Qed.

Lemma jeqb_refl (a : jstr) : jeqb a a = true.
Proof. apply jeqb_eq. reflexivity. Qed.

(** Server ids never fall in the local namespace. *)
Lemma toString_not_local (z : Z) : is_local (toString z) = false.
Proof.
  unfold toString, Z_to_string. destruct (Z.to_int z) as [d|d]; destruct d; reflexivity.
Qed.

Lemma replace_by_id_In (id : jstr) (x h : ChatHistory) (l : list ChatHistory) :
  In h (replace_by_id id x l) -> jeqb (h_id h) id = true -> h = x.
Proof.
  unfold replace_by_id. rewrite in_map_iff. intros [h0 [<- _]].
  destruct (jeqb (h_id h0) id) eqn:E; [reflexivity | intros; congruence].
Qed.

Lemma replace_by_id_other (id : jstr) (x h : ChatHistory) (l : list ChatHistory) :
  In h (replace_by_id id x l) -> h = x \/ In h l.
Proof.
  unfold replace_by_id. rewrite in_map_iff. intros [h0 [<- Hin]].
  destruct (jeqb (h_id h0) id); auto.
Qed.

(** The remote dispatch, when the send and the re-fetch both resolve:
    it resolves, and the current chat and every Directory entry with the
    target's id hold the re-fetched list. *)
Lemma dispatch_remote_ok (srv : ChatServer) (env : Env) (t u : ChatHistory) (content : jstr)
    (msgs : list ApiMessage) (s1 : ChatState) :
  is_local (h_id t) = false ->
  sv_send srv (parseInt (h_id t)) content = Some tt ->
  sv_messages srv (parseInt (h_id t)) = Some msgs ->
  let '(s2, l, r) := dispatch true srv env t u content s1 in
  r = Some tt /\
  (exists c, currentChat s2 = Some c /\ h_id c = h_id u /\ h_messages c = map convertMessage msgs) /\
  (forall h, In h (chatHistories s2) -> h_id h = h_id t -> h_messages h = map convertMessage msgs).
Proof.
  intros Hremote Hsend Hfetch. unfold dispatch. rewrite Hremote. cbn [andb negb].
  unfold bind, call. rewrite Hsend, Hfetch.
  destruct (Nat.eqb (length (h_messages t)) 0).
  - unfold try_catch, bind, call. destruct (sv_title srv (parseInt (h_id t))) as [title|].
    + cbn. split; [reflexivity | split; [eexists; split; [reflexivity | auto] |]].
      intros h Hin Hid. apply (replace_by_id_In _ _ h) in Hin; [subst; reflexivity |].
      rewrite Hid. apply jeqb_refl.
    + cbn. split; [reflexivity | split; [eexists; split; [reflexivity | auto] |]].
      intros h Hin Hid. apply (replace_by_id_In _ _ h) in Hin; [subst; reflexivity |].
      rewrite Hid. apply jeqb_refl.
  - cbn. split; [reflexivity | split; [eexists; split; [reflexivity | auto] |]].
    intros h Hin Hid. apply (replace_by_id_In _ _ h) in Hin; [subst; reflexivity |].
    rewrite Hid. apply jeqb_refl.
Qed.

Lemma try_catch_ok {A} (m h : M A) (s s' : ChatState) (l : list Effect) (a : A) :
  m s = (s', l, Some a) -> try_catch m h s = (s', l, Some a).
Proof. intros E. unfold try_catch. rewrite E. reflexivity. Qed.

Lemma try_catch_fail {A} (m h : M A) (s s' : ChatState) (l : list Effect) :
  m s = (s', l, None) ->
  try_catch m h s = (fst (fst (h s')), app l (snd (fst (h s'))), snd (h s')).
Proof.
  intros E. unfold try_catch. rewrite E. destruct (h s') as [[s2 l2] r2]. reflexivity.
Qed.

(** [sendMessage] once its target is resolved: the optimistic append,
    then the dispatch with its rollback handler. *)
Lemma sendMessage_eq (auth : bool) (srv : ChatServer) (env : Env) (content : jstr)
    (s s1 : ChatState) (l1 : list Effect) (t : ChatHistory) :
  resolveTarget auth srv env (currentChat s) s = (s1, l1, Some (Some t)) ->
  sendMessage auth srv env content s =
   (let u := optimisticAppend env t content in
    let s2 := mkState (replace_by_id (h_id t) u (chatHistories s1)) (Some u) (isLoading s1) in
    let '(s3, l3, r3) := try_catch (dispatch auth srv env t u content)
         (setCurrentChat (Some t) ;; setChatHistories (replace_by_id (h_id t) t)) s2 in
    (s3, app l1 l3, r3)).
Proof.
  intros H. unfold sendMessage at 1. unfold bind at 1. unfold get at 1. cbv beta iota.
  unfold bind at 1. rewrite H. cbv beta iota.
  unfold bind at 1. unfold setCurrentChat at 1, update_current at 1. cbv beta iota.
  unfold bind at 1. unfold setChatHistories at 1. cbv beta iota.
  cbn [chatHistories currentChat isLoading].
  destruct (try_catch _ _ _) as [[s3 l3] r3]. reflexivity.
Qed.

Lemma resolveTarget_current (auth : bool) (srv : ChatServer) (env : Env) (s : ChatState) (t : ChatHistory) :
  resolveTarget auth srv env (Some t) s = (s, [], Some (Some t)).
Proof. reflexivity. Qed.

Lemma resolveTarget_remote (srv : ChatServer) (env : Env) (s : ChatState) (session : ChatSession) :
  sv_create srv NEW_CONVERSATION = Some session ->
  resolveTarget true srv env None s =
    (mkState (convertApiChatToLocal session [] :: chatHistories s)
             (Some (convertApiChatToLocal session [])) (isLoading s),
     [Net (CreateChatSession NEW_CONVERSATION)],
     Some (Some (convertApiChatToLocal session []))).
Proof. intros H. unfold resolveTarget, try_catch, bind, call. rewrite H. reflexivity. Qed.

Lemma resolveTarget_local (env : Env) (srv : ChatServer) (s : ChatState) :
  resolveTarget false srv env None s =
    (mkState (local_chat env :: chatHistories s) (Some (local_chat env)) (isLoading s),
     [], Some (Some (local_chat env))).
Proof. reflexivity. Qed.

(** Claim C2. A [sendMessage] on an authenticated session whose target is
    remote (the current chat, or the one it creates), where the send and
    the re-fetch of the session's messages both resolve: afterwards the
    current chat and every Directory entry of that session hold exactly
    the message list the server returned. *)
Theorem C2_send_reconciles_with_server
    (srv : ChatServer) (env : Env) (content : jstr) (s : ChatState) (t : ChatHistory)
    (msgs : list ApiMessage)
    (Htarget : currentChat s = Some t \/
               (currentChat s = None /\ exists session,
                  sv_create srv NEW_CONVERSATION = Some session /\ t = convertApiChatToLocal session []))
    (Hremote : is_local (h_id t) = false)
    (Hsend : sv_send srv (parseInt (h_id t)) content = Some tt)
    (Hfetch : sv_messages srv (parseInt (h_id t)) = Some msgs) :
  let s' := run (sendMessage true srv env content) s in
  (exists c, currentChat s' = Some c /\ h_id c = h_id t /\ h_messages c = map convertMessage msgs) /\
  (forall h, In h (chatHistories s') -> h_id h = h_id t -> h_messages h = map convertMessage msgs).
Proof.
  assert (Hres : exists s1 l1, resolveTarget true srv env (currentChat s) s = (s1, l1, Some (Some t))).
  { destruct Htarget as [Hc | [Hc [session [Hs ->]]]]; rewrite Hc.
    - eexists _, _. apply resolveTarget_current.
    - eexists _, _. apply resolveTarget_remote. exact Hs. }
  destruct Hres as [s1 [l1 Hres]].
  unfold run. rewrite (sendMessage_eq _ _ _ _ _ _ _ _ Hres). cbv zeta. unfold try_catch.
  match goal with
  | |- context [dispatch true srv env t ?u content ?s2] =>
      pose proof (dispatch_remote_ok srv env t u content msgs s2 Hremote Hsend Hfetch) as D;
      destruct (dispatch true srv env t u content s2) as [[s3 l3] r3] eqn:E
  end.
  destruct D as [-> [Hcur Hhist]].
  simpl. split; [| exact Hhist].
  destruct Hcur as [c [Hc [Hid Hm]]]. exists c. split; [exact Hc | split; [| exact Hm]].
  rewrite Hid. reflexivity.
Qed.

Lemma C2_witness :
  is_local (h_id chat5) = false /\
  let s' := run (sendMessage true srv_ok env0 (js "Hello")) state5 in
  exists c, currentChat s' = Some c /\ h_id c = h_id chat5 /\ h_messages c = map convertMessage server_log5.
Proof.
  split; [reflexivity |].
  exact (proj1 (C2_send_reconciles_with_server srv_ok env0 (js "Hello") state5 chat5 server_log5
                  (or_introl eq_refl) eq_refl eq_refl eq_refl)).
Defined.

(** A dispatch that throws has changed nothing: it throws only at the
    send or at the re-fetch, before any state update. *)
Lemma dispatch_fail_state (auth : bool) (srv : ChatServer) (env : Env) (t u : ChatHistory)
    (content : jstr) (s2 : ChatState) :
  snd (dispatch auth srv env t u content s2) = None ->
  fst (fst (dispatch auth srv env t u content s2)) = s2.
Proof.
  unfold dispatch. destruct (auth && negb (is_local (h_id t))).
  - unfold bind, call.
    destruct (sv_send srv (parseInt (h_id t)) content) as [[]|]; [| reflexivity].
    destruct (sv_messages srv (parseInt (h_id t))) as [msgs|]; [| reflexivity].
    destruct (Nat.eqb (length (h_messages t)) 0).
    + unfold try_catch, bind, call. destruct (sv_title srv (parseInt (h_id t))); discriminate.
    + discriminate.
  - discriminate.
Qed.

Lemma replace_by_id_twice (id : jstr) (x y : ChatHistory) (l : list ChatHistory) :
  h_id y = id ->
  replace_by_id id x (replace_by_id id y l) = replace_by_id id x l.
Proof.
  intros Hy. unfold replace_by_id. rewrite map_map. apply map_ext. intros h.
  destruct (jeqb (h_id h) id) eqn:E; [| rewrite E; reflexivity].
  rewrite Hy, jeqb_refl. reflexivity.
Qed.

Lemma replace_by_id_same (id : jstr) (x : ChatHistory) (l : list ChatHistory) :
  (forall h, In h l -> h_id h = id -> h = x) -> replace_by_id id x l = l.
Proof.
  intros H. unfold replace_by_id. rewrite <- (map_id l) at 2. apply map_ext_in. intros h Hin.
  destruct (jeqb (h_id h) id) eqn:E; [| reflexivity].
  symmetry. apply H; [exact Hin | apply jeqb_eq; exact E].
Qed.

(** Claim C3. When the dispatch step of [sendMessage] throws, the
    current chat is again the snapshot [t] taken before the optimistic
    append (same messages, title and updatedAt), every Directory entry of
    that session is [t], the other entries are untouched, and the
    Directory is exactly the pre-append one when its entry already was
    that snapshot. *)
Theorem C3_send_failure_rolls_back
    (auth : bool) (srv : ChatServer) (env : Env) (content : jstr) (s s1 : ChatState)
    (l1 : list Effect) (t : ChatHistory)
    (Hres : resolveTarget auth srv env (currentChat s) s = (s1, l1, Some (Some t)))
    (Hfail : snd (dispatch auth srv env t (optimisticAppend env t content) content
                   (mkState (replace_by_id (h_id t) (optimisticAppend env t content) (chatHistories s1))
                            (Some (optimisticAppend env t content)) (isLoading s1))) = None) :
  let s' := run (sendMessage auth srv env content) s in
  currentChat s' = Some t /\
  chatHistories s' = replace_by_id (h_id t) t (chatHistories s1) /\
  ((forall h, In h (chatHistories s1) -> h_id h = h_id t -> h = t) ->
   chatHistories s' = chatHistories s1).
Proof.
  unfold run. rewrite (sendMessage_eq _ _ _ _ _ _ _ _ Hres). cbv zeta.
  pose proof (dispatch_fail_state _ _ _ _ _ _ _ Hfail) as Hst.
  unfold try_catch.
  destruct (dispatch _ _ _ _ _ _ _) as [[s3 l3] r3] eqn:E. simpl in Hfail, Hst. subst r3 s3.
  cbn. change (map (fun h => if jeqb (h_id h) (h_id t) then t else h) ?l) with (replace_by_id (h_id t) t l). rewrite replace_by_id_twice by reflexivity.
  split; [reflexivity | split; [reflexivity |]].
  apply replace_by_id_same.
Qed.

Lemma C3_witness :
  resolveTarget true srv_down env0 (currentChat state5) state5 = (state5, [], Some (Some chat5)) /\
  currentChat (run (sendMessage true srv_down env0 (js "Hello")) state5) = Some chat5.
Proof.
  split; [reflexivity |].
  exact (proj1 (C3_send_failure_rolls_back true srv_down env0 (js "Hello") state5 state5 []
                  chat5 eq_refl eq_refl)).
Defined.

(** Claim C4 fails: a local chat that was current while anonymous is
    still current after the transition to authenticated; the most recent
    server session is listed but neither loaded nor made current. *)
Lemma C4_counterexample :
  currentChat state_anon = Some (local_chat env0) /\
  chatHistories (run (authEffect true srv_ok) state_anon) = [chat5] /\
  currentChat (run (authEffect true srv_ok) state_anon) = Some (local_chat env0) /\
  currentChat (run (authEffect true srv_ok) state_anon)
    <> Some (convertApiChatToLocal session5 server_log5).
Proof.
  split; [reflexivity | split; [reflexivity | split; [reflexivity |]]].
  vm_compute. discriminate.
Qed.

(** Claim C4, as amended. On the transition to authenticated, the
    session list is requested. When it loads, the Directory becomes
    exactly that list (without messages); the most recent session's
    messages are then requested, and that session made current, only
    when no chat is current at that moment; otherwise no messages are
    requested and the current pointer is kept. When the list fails to
    load, Directory and current pointer are unchanged. Loading ends. *)
Theorem C4_login_reload_amended (srv : ChatServer) (s : ChatState) :
  let s' := run (authEffect true srv) s in
  effects (authEffect true srv) s =
    Net GetChatSessions ::
      match sv_sessions srv, currentChat s with
      | Some (session0 :: _), None => [Net (GetChatMessages (parseInt (toString (cs_id session0))))]
      | _, _ => []
      end /\
  isLoading s' = false /\
  match sv_sessions srv with
  | None => chatHistories s' = chatHistories s /\ currentChat s' = currentChat s
  | Some sessions =>
      chatHistories s' = map (fun session => convertApiChatToLocal session []) sessions /\
      currentChat s' =
        match sessions, currentChat s with
        | session0 :: _, None =>
            match sv_messages srv (parseInt (toString (cs_id session0))) with
            | Some messages => Some (convertApiChatToLocal session0 messages)
            | None => None
            end
        | _, c => c
        end
  end.
Proof.
  unfold run, effects, authEffect, loadChatSessions, try_finally, try_catch, bind, get, call,
    setIsLoading, setChatHistories, setCurrentChat, update_current, ret.
  cbn [negb fst snd chatHistories currentChat isLoading].
  destruct (sv_sessions srv) as [sessions|]; [| cbn; auto].
  destruct sessions as [|session0 rest]; [cbn; auto |].
  destruct (currentChat s) as [c|]; [cbn; auto |].
  cbn [map convertApiChatToLocal h_id].
  destruct (sv_messages srv (parseInt (toString (cs_id session0)))); cbn; auto.
Qed.

(** Claim C5. The optimistic [updatedChat] of [sendMessage] (see
    [sendMessage_eq]) takes the title [content.slice(0, 30) + '...'] when
    the target has no message yet, the ellipsis being added whatever the
    length of [content], and keeps the title otherwise. *)
Theorem C5_speculative_title (env : Env) (t : ChatHistory) (content : jstr) :
  h_title (optimisticAppend env t content) =
    (if Nat.eqb (length (h_messages t)) 0
     then app (firstn 30 content) (js "...")
     else h_title t) /\
  h_title (optimisticAppend env (local_chat env) (js "Hello")) = js "Hello...".
Proof. split; reflexivity. Qed.

Lemma pick_in (i : Z) : (0 <= i < 3)%Z -> In (pick i) mockResponses.
Proof.
  intros H. assert (i = 0 \/ i = 1 \/ i = 2)%Z as [-> | [-> | ->]] by lia; simpl; auto.
Qed.

(** [Math.floor(Math.random() * 3)] is a valid index. *)
Lemma floor_index (r : Q) : (0 <= r)%Q -> (r < 1)%Q -> (0 <= Qfloor (r * 3) < 3)%Z.
Proof.
  intros H0 H1. split.
  - change 0%Z with (Qfloor 0). apply Qfloor_resp_le. lra.
  - rewrite Zlt_Qlt. apply (Qle_lt_trans _ (r * 3)); [apply Qfloor_le | replace (inject_Z 3) with (3 # 1) by reflexivity; lra].
Qed.

(** The canned-reply dispatch, taken for every local-namespace target. *)
Lemma dispatch_local (auth : bool) (srv : ChatServer) (env : Env) (t u : ChatHistory)
    (content : jstr) (s2 : ChatState) :
  is_local (h_id t) = true ->
  dispatch auth srv env t u content s2 =
   (let aiMessage := mkMsg (e_uuid_ai env) (pick (Qfloor (e_rand_pick env * 3))) RAssistant
                           (DNow (e_now env)) in
    let finalChat := mkChat (h_id u) (h_title u) (app (h_messages u) [aiMessage])
                            (h_createdAt u) (DNow (e_now env)) in
    (mkState (replace_by_id (h_id t) finalChat (chatHistories s2)) (Some finalChat) (isLoading s2),
     [Sleep (1000 + e_rand_delay env * 2000)%Q], Some tt)).
Proof. intros H. unfold dispatch. rewrite H, andb_false_r. reflexivity. Qed.

(** Claim C6. In anonymous mode [createNewChat] issues no network call and
    builds a local chat; [selectChat] on a local id issues no network call
    and only moves the current pointer (to the Directory's entry, if
    any); [sendMessage] to a local session (the current one, or the one
    it creates when anonymous) issues no network call: its only effect is
    one timer of 1000 to 3000 ms, after which one of the three canned
    replies is appended after the user's message. *)
Theorem C6_local_sessions_stay_offline
    (auth : bool) (srv : ChatServer) (env : Env) (s : ChatState) (chatId content : jstr)
    (t : ChatHistory)
    (Hid : is_local chatId = true)
    (Htarget : (currentChat s = Some t /\ is_local (h_id t) = true) \/
               (currentChat s = None /\ auth = false /\ t = local_chat env))
    (Hpick : (0 <= e_rand_pick env < 1)%Q)
    (Hdelay : (0 <= e_rand_delay env < 1)%Q) :
  (effects (createNewChat false srv env) s = [] /\
   run (createNewChat false srv env) s =
     mkState (local_chat env :: chatHistories s) (Some (local_chat env)) (isLoading s) /\
   is_local (h_id (local_chat env)) = true) /\
  (effects (selectChat auth srv chatId) s = [] /\
   run (selectChat auth srv chatId) s =
     mkState (chatHistories s)
             (match find_by_id chatId (chatHistories s) with
              | Some c => Some c | None => currentChat s end) (isLoading s)) /\
  (exists d reply,
     effects (sendMessage auth srv env content) s = [Sleep d] /\
     (1000 <= d < 3000)%Q /\ In reply mockResponses /\
     exists c, currentChat (run (sendMessage auth srv env content) s) = Some c /\
       h_messages c = app (h_messages t)
         [mkMsg (e_uuid_user env) content RUser (DNow (e_now env));
          mkMsg (e_uuid_ai env) reply RAssistant (DNow (e_now env))]).
Proof.
  split; [split; [reflexivity | split; reflexivity] |].
  split.
  - unfold effects, run, selectChat, bind, get. rewrite Hid.
    destruct (find_by_id chatId (chatHistories s)); destruct s; split; reflexivity.
  - assert (Hres : exists s1, resolveTarget auth srv env (currentChat s) s = (s1, [], Some (Some t))
                   /\ is_local (h_id t) = true).
    { destruct Htarget as [[Hc Hl] | [Hc [-> ->]]]; rewrite Hc.
      - eexists. split; [apply resolveTarget_current | exact Hl].
      - eexists. split; [apply resolveTarget_local | reflexivity]. }
    destruct Hres as [s1 [Hres Hl]].
    exists (1000 + e_rand_delay env * 2000)%Q, (pick (Qfloor (e_rand_pick env * 3))).
    unfold effects, run. rewrite (sendMessage_eq _ _ _ _ _ _ _ _ Hres). cbv zeta.
    unfold try_catch. rewrite dispatch_local by exact Hl. cbn.
    destruct Hdelay as [Hd0 Hd1].
    split; [reflexivity | split; [split; lra | split]].
    + apply pick_in, floor_index; apply Hpick.
    + eexists. split; [reflexivity |]. cbn. rewrite <- app_assoc. reflexivity.
Qed.

Lemma C6_witness :
  is_local (js "local-1000") = true /\ (0 <= e_rand_pick env0 < 1)%Q /\ (0 <= e_rand_delay env0 < 1)%Q /\
  exists d, effects (sendMessage false srv_ok env0 (js "Hello")) empty_state = [Sleep d] /\ (1000 <= d < 3000)%Q.
Proof.
  assert (H1 : (0 <= e_rand_pick env0 < 1)%Q) by (simpl; split; lra).
  assert (H2 : (0 <= e_rand_delay env0 < 1)%Q) by (simpl; split; lra).
  split; [reflexivity | split; [exact H1 | split; [exact H2 |]]].
  destruct (proj2 (proj2 (C6_local_sessions_stay_offline false srv_ok env0 empty_state
              (js "local-1000") (js "Hello") (local_chat env0) eq_refl
              (or_intror (conj eq_refl (conj eq_refl eq_refl))) H1 H2)))
    as [d [reply [Heff [Hd _]]]].
  exists d. split; [exact Heff | exact Hd].
Defined.

(** Claim C7. [deleteChat] on a remote id while authenticated: when the
    server delete rejects, the state is unchanged (Directory included);
    when it resolves, the Directory is the old one without that id, and
    if that session was current, the new current one is the first
    (most recent) remaining entry, or none. *)
Theorem C7_remote_delete (srv : ChatServer) (s : ChatState) (chatId : jstr)
    (Hremote : is_local chatId = false) :
  let s' := run (deleteChat true srv chatId) s in
  let remaining := filter (fun h => negb (jeqb (h_id h) chatId)) (chatHistories s) in
  match sv_delete srv (parseInt chatId) with
  | None => s' = s
  | Some _ =>
      chatHistories s' = remaining /\
      (forall h, In h (chatHistories s') -> h_id h <> chatId) /\
      currentChat s' =
        (if match currentChat s with Some c => jeqb (h_id c) chatId | None => false end
         then hd_error remaining
         else currentChat s)
  end.
Proof.
  unfold run, deleteChat, bind, get. rewrite Hremote. cbn [negb].
  unfold try_catch, call. destruct (sv_delete srv (parseInt chatId)) as [[]|].
  - destruct (match currentChat s with Some c => jeqb (h_id c) chatId | None => false end) eqn:Hc.
    + cbn. split; [reflexivity | split; [| destruct (filter _ _); reflexivity]].
      intros h Hin Hh. apply filter_In in Hin as [_ Hn]. rewrite Hh, jeqb_refl in Hn. discriminate.
    + cbn. split; [reflexivity | split; [| destruct s; reflexivity]].
      intros h Hin Hh. apply filter_In in Hin as [_ Hn]. rewrite Hh, jeqb_refl in Hn. discriminate.
  - cbn. destruct s; reflexivity.
Qed.

Lemma C7_witness :
  is_local (toString 7) = false /\
  chatHistories (run (deleteChat true srv_ok (toString 7)) (mkState [chat7; chat5] (Some chat7) false))
    = [chat5] /\
  currentChat (run (deleteChat true srv_ok (toString 7)) (mkState [chat7; chat5] (Some chat7) false))
    = Some chat5.
Proof.
  split; [reflexivity |].
  pose proof (C7_remote_delete srv_ok (mkState [chat7; chat5] (Some chat7) false) (toString 7) eq_refl)
    as H.
  simpl in H. destruct H as [H1 [_ H3]]. split; [exact H1 | exact H3].
Defined.

(** Claim C9. "First message" is read off the in-memory list only: for a
    remote current session whose local copy is empty, whatever the server
    holds, [sendMessage] overwrites the title with the speculative one
    and, once the send and the re-fetch resolve, also asks the server to
    generate a title. *)
Theorem C9_first_message_from_local_copy
    (srv : ChatServer) (env : Env) (content : jstr) (s : ChatState) (t : ChatHistory)
    (msgs : list ApiMessage)
    (Hcur : currentChat s = Some t)
    (Hempty : h_messages t = [])
    (Hremote : is_local (h_id t) = false)
    (Hsend : sv_send srv (parseInt (h_id t)) content = Some tt)
    (Hfetch : sv_messages srv (parseInt (h_id t)) = Some msgs) :
  h_title (optimisticAppend env t content) = speculative_title content /\
  In (Net (UpdateSessionTitle (parseInt (h_id t)))) (effects (sendMessage true srv env content) s).
Proof.
  split; [unfold optimisticAppend, optimistic; simpl; rewrite Hempty; reflexivity |].
  assert (Hres : resolveTarget true srv env (currentChat s) s = (s, [], Some (Some t)))
    by (rewrite Hcur; reflexivity).
  unfold effects. rewrite (sendMessage_eq _ _ _ _ _ _ _ _ Hres). cbv zeta.
  unfold try_catch at 1, dispatch. rewrite Hremote. cbn [andb negb].
  unfold bind at 1 2, call at 1 2. rewrite Hsend, Hfetch, Hempty. cbn [length Nat.eqb].
  unfold try_catch, bind, call.
  destruct (sv_title srv (parseInt (h_id t))); cbn; auto 10.
Qed.

Lemma C9_witness :
  currentChat state_after_delete = Some chat5 /\ h_messages chat5 = [] /\
  server_log5 <> [] /\
  In (Net (UpdateSessionTitle (Some 5))) (effects (sendMessage true srv_ok env0 (js "Next")) state_after_delete).
Proof.
  assert (Hc : currentChat state_after_delete = Some chat5) by reflexivity.
  split; [exact Hc | split; [reflexivity | split; [discriminate |]]].
  exact (proj2 (C9_first_message_from_local_copy srv_ok env0 (js "Next") state_after_delete chat5
                  server_log5 Hc eq_refl eq_refl eq_refl eq_refl)).
Defined.

(** *** Namespaces over the application's lifetime *)

Lemma starts_with_app (p x : jstr) : starts_with p (app p x) = true.
Proof. induction p as [|a p IH]; simpl; [reflexivity | rewrite N.eqb_refl; exact IH]. Qed.

Lemma local_chat_local (env : Env) : is_local (h_id (local_chat env)) = true.
Proof. apply starts_with_app. Qed.

Lemma map_id_replace_by_id (id : jstr) (x : ChatHistory) (l : list ChatHistory) :
  h_id x = id -> map h_id (replace_by_id id x l) = map h_id l.
Proof.
  intros Hx. unfold replace_by_id. rewrite map_map. apply map_ext. intros h.
  destruct (jeqb (h_id h) id) eqn:E; [| reflexivity]. rewrite Hx. symmetry. apply jeqb_eq, E.
Qed.

(** The dispatch only rewrites entries with a chat of the target's id. *)
Lemma dispatch_ids (auth : bool) (srv : ChatServer) (env : Env) (t u : ChatHistory)
    (content : jstr) (s2 : ChatState) :
  h_id u = h_id t ->
  map h_id (chatHistories (fst (fst (dispatch auth srv env t u content s2)))) =
  map h_id (chatHistories s2).
Proof.
  intros Hu. unfold dispatch. destruct (auth && negb (is_local (h_id t))).
  - unfold bind, call.
    destruct (sv_send srv (parseInt (h_id t)) content) as [[]|]; [| reflexivity].
    destruct (sv_messages srv (parseInt (h_id t))) as [msgs|]; [| reflexivity].
    destruct (Nat.eqb (length (h_messages t)) 0).
    + unfold try_catch, bind, call. destruct (sv_title srv (parseInt (h_id t))); cbn -[replace_by_id];
        rewrite ?map_id_replace_by_id by exact Hu; reflexivity.
    + cbn -[replace_by_id]. apply map_id_replace_by_id. exact Hu.
  - cbn -[replace_by_id]. apply map_id_replace_by_id. exact Hu.
Qed.

Lemma filter_true {A} (l : list A) : filter (fun _ => true) l = l.
Proof. induction l as [|a l IH]; simpl; [reflexivity | rewrite IH; reflexivity]. Qed.

Lemma selectChat_histories (auth : bool) (srv : ChatServer) (chatId : jstr) (s : ChatState) :
  chatHistories (run (selectChat auth srv chatId) s) = chatHistories s.
Proof.
  unfold run, selectChat, bind, get. destruct (is_local chatId).
  - destruct (find_by_id chatId (chatHistories s)); reflexivity.
  - destruct auth; [| reflexivity]. cbn [negb].
    unfold try_finally, try_catch, bind, call, setIsLoading.
    destruct (sv_messages srv (parseInt chatId)); cbn; [| reflexivity].
    destruct (find_by_id chatId (chatHistories s)); reflexivity.
Qed.

(** Every operation keeps the ids of the Directory entries it keeps, in
    order: it may drop entries and put at most one new entry in front,
    but never changes the id of an entry. *)
Lemma op_keeps_ids (auth : bool) (srv : ChatServer) (env : Env) (op : Op) (s : ChatState) :
  exists (pre : list jstr) (keep : jstr -> bool),
    (length pre <= 1)%nat /\
    map h_id (chatHistories (run (run_op auth srv env op) s)) =
      app pre (filter keep (map h_id (chatHistories s))).
Proof.
  destruct op as [| chatId | content | chatId]; cbn [run_op].
  - unfold createNewChat. destruct auth; cbn [negb].
    + unfold run, try_catch, bind, call. destruct (sv_create srv NEW_CONVERSATION) as [session|].
      * exists [h_id (convertApiChatToLocal session [])], (fun _ => true).
        rewrite filter_true. split; [auto | reflexivity].
      * exists [], (fun _ => true). rewrite filter_true. split; [auto | reflexivity].
    + exists [h_id (local_chat env)], (fun _ => true). rewrite filter_true. split; [auto | reflexivity].
  - exists [], (fun _ => true). rewrite filter_true, selectChat_histories. split; [auto | reflexivity].
  - assert (Hres : exists pre s1 l1 r, (length pre <= 1)%nat /\
              resolveTarget auth srv env (currentChat s) s = (s1, l1, r) /\
              map h_id (chatHistories s1) = app pre (map h_id (chatHistories s)) /\
              (r = Some None -> pre = [] /\ s1 = s)).
    { destruct (currentChat s) as [t|] eqn:Hc.
      - exists [], s, [], (Some (Some t)). split; [auto | split; [reflexivity | split; [reflexivity |]]].
        discriminate.
      - destruct auth.
        + destruct (sv_create srv NEW_CONVERSATION) as [session|] eqn:Hs.
          * exists [h_id (convertApiChatToLocal session [])]. do 3 eexists.
            split; [auto | split; [apply resolveTarget_remote, Hs | split; [reflexivity | discriminate]]].
          * exists [], s, [Net (CreateChatSession NEW_CONVERSATION)], (Some None).
            split; [auto | split; [| split; [reflexivity | auto]]].
            unfold resolveTarget, try_catch, bind, call. rewrite Hs. reflexivity.
        + exists [h_id (local_chat env)]. do 3 eexists.
          split; [auto | split; [apply resolveTarget_local | split; [reflexivity | discriminate]]]. }
    destruct Hres as [pre [s1 [l1 [r [Hlen [Hres [Hids Hnone]]]]]]].
    exists pre, (fun _ => true). rewrite filter_true. split; [exact Hlen |].
    destruct r as [[t|]|].
    + unfold run. rewrite (sendMessage_eq _ _ _ _ _ _ _ _ Hres). cbv zeta. unfold try_catch.
      pose proof (dispatch_ids auth srv env t (optimisticAppend env t content) content
        (mkState (replace_by_id (h_id t) (optimisticAppend env t content) (chatHistories s1))
                 (Some (optimisticAppend env t content)) (isLoading s1)) eq_refl) as Hd.
      destruct (dispatch _ _ _ _ _ _ _) as [[s3 l3] [[]|]]; cbn -[replace_by_id] in Hd |- *.
      * rewrite Hd, map_id_replace_by_id by reflexivity. exact Hids.
      * rewrite map_id_replace_by_id, Hd, map_id_replace_by_id by reflexivity. exact Hids.
    + destruct (Hnone eq_refl) as [-> ->].
      unfold run, sendMessage, bind at 1, get at 1. cbv beta iota.
      unfold bind at 1. rewrite Hres. reflexivity.
    + unfold run, sendMessage, bind at 1, get at 1. cbv beta iota.
      unfold bind at 1. rewrite Hres. cbn. exact Hids.
  - unfold run, deleteChat, bind at 1, get at 1. cbv beta.
    destruct (is_local chatId).
    + exists [], (fun i => negb (jeqb i chatId)). split; [auto |].
      unfold bind, setChatHistories. cbn.
      destruct (match currentChat s with Some c => jeqb (h_id c) chatId | None => false end);
        cbn; rewrite filter_map_swap; reflexivity.
    + destruct auth; cbn [negb].
      * unfold try_catch, bind, call. destruct (sv_delete srv (parseInt chatId)).
        -- exists [], (fun i => negb (jeqb i chatId)). split; [auto |].
           destruct (match currentChat s with Some c => jeqb (h_id c) chatId | None => false end);
             cbn; rewrite filter_map_swap; reflexivity.
        -- exists [], (fun _ => true). rewrite filter_true. split; [auto | reflexivity].
      * exists [], (fun _ => true). rewrite filter_true. split; [auto | reflexivity].
Qed.

Lemma dispatch_canned (auth : bool) (srv : ChatServer) (env : Env) (t u : ChatHistory)
    (content : jstr) (s2 : ChatState) :
  auth && negb (is_local (h_id t)) = false ->
  dispatch auth srv env t u content s2 =
   (let aiMessage := mkMsg (e_uuid_ai env) (pick (Qfloor (e_rand_pick env * 3))) RAssistant
                           (DNow (e_now env)) in
    let finalChat := mkChat (h_id u) (h_title u) (app (h_messages u) [aiMessage])
                            (h_createdAt u) (DNow (e_now env)) in
    (mkState (replace_by_id (h_id t) finalChat (chatHistories s2)) (Some finalChat) (isLoading s2),
     [Sleep (1000 + e_rand_delay env * 2000)%Q], Some tt)).
Proof. intros H. unfold dispatch. rewrite H. reflexivity. Qed.

Lemma all_local_intro (cs : ChatState) :
  (forall c, currentChat cs = Some c -> is_local (h_id c) = true) ->
  (forall c, In c (chatHistories cs) -> is_local (h_id c) = true) -> all_local cs.
Proof.
  intros Hc Hh c. unfold sessions. destruct (currentChat cs) as [c0|] eqn:E; [| apply Hh].
  intros [<- | Hin]; [apply Hc; reflexivity | apply Hh, Hin].
Qed.

Lemma all_local_current (cs : ChatState) (c : ChatHistory) :
  all_local cs -> currentChat cs = Some c -> is_local (h_id c) = true.
Proof. intros H Hc. apply H. unfold sessions. rewrite Hc. left. reflexivity. Qed.

Lemma all_local_hist (cs : ChatState) (c : ChatHistory) :
  all_local cs -> In c (chatHistories cs) -> is_local (h_id c) = true.
Proof.
  intros H Hin. apply H. unfold sessions. destruct (currentChat cs); [right|]; exact Hin.
Qed.

Lemma find_by_id_In (id : jstr) (l : list ChatHistory) (c : ChatHistory) :
  find_by_id id l = Some c -> In c l.
Proof. unfold find_by_id. apply find_some. Qed.

(** Anonymous operations keep every held session local. *)
Lemma op_anon_local (srv : ChatServer) (env : Env) (op : Op) (cs : ChatState) :
  all_local cs -> all_local (run (run_op false srv env op) cs).
Proof.
  intros Hall. destruct op as [| chatId | content | chatId]; cbn [run_op].
  - apply all_local_intro; cbn -[local_chat is_local replace_by_id].
    + intros c [= <-]. apply local_chat_local.
    + intros c [<- | Hin]; [apply local_chat_local | apply (all_local_hist cs); auto].
  - unfold run, selectChat, bind, get. destruct (is_local chatId) eqn:Hl; [| exact Hall].
    destruct (find_by_id chatId (chatHistories cs)) as [c0|] eqn:Hf; [| exact Hall].
    apply all_local_intro; cbn -[local_chat is_local replace_by_id].
    + intros c [= <-]. apply (all_local_hist cs); [exact Hall | apply (find_by_id_In chatId), Hf].
    + intros c Hin. apply (all_local_hist cs); auto.
  - assert (Hres : exists s1 t, resolveTarget false srv env (currentChat cs) cs = (s1, [], Some (Some t))
                   /\ all_local s1 /\ is_local (h_id t) = true).
    { destruct (currentChat cs) as [t|] eqn:Hc.
      - exists cs, t. split; [reflexivity | split; [exact Hall |]].
        apply (all_local_current cs); auto.
      - eexists _, _. split; [apply resolveTarget_local | split; [| apply local_chat_local]].
        apply all_local_intro; cbn -[local_chat is_local replace_by_id].
        + intros c [= <-]. apply local_chat_local.
        + intros c [<- | Hin]; [apply local_chat_local | apply (all_local_hist cs); auto]. }
    destruct Hres as [s1 [t [Hres [Hall1 Ht]]]].
    unfold run. rewrite (sendMessage_eq _ _ _ _ _ _ _ _ Hres). cbv zeta. unfold try_catch.
    rewrite dispatch_canned by reflexivity. cbn -[local_chat is_local replace_by_id].
    apply all_local_intro; cbn -[local_chat is_local replace_by_id].
    + intros c [= <-]. exact Ht.
    + intros c Hin.
      destruct (replace_by_id_other _ _ _ _ Hin) as [-> | Hin']; [exact Ht |].
      destruct (replace_by_id_other _ _ _ _ Hin') as [-> | Hin'']; [exact Ht |].
      apply (all_local_hist s1); auto.
  - unfold run, deleteChat, bind at 1, get at 1. cbv beta.
    destruct (is_local chatId); [| exact Hall].
    unfold bind, setChatHistories.
    destruct (match currentChat cs with Some c => jeqb (h_id c) chatId | None => false end);
      cbn -[local_chat is_local replace_by_id]; apply all_local_intro; cbn -[local_chat is_local replace_by_id].
    + destruct (filter _ _) as [|c0 r] eqn:Hf; [discriminate |].
      intros c [= <-]. apply (all_local_hist cs); [exact Hall |].
      assert (Hin : In c0 (filter (fun h => negb (jeqb (h_id h) chatId)) (chatHistories cs)))
        by (rewrite Hf; left; reflexivity).
      apply filter_In in Hin as [Hin _]. exact Hin.
    + intros c Hin. apply filter_In in Hin as [Hin _]. apply (all_local_hist cs); auto.
    + intros c Hc. apply (all_local_current cs); auto.
    + intros c Hin. apply filter_In in Hin as [Hin _]. apply (all_local_hist cs); auto.
Qed.

(** In every reachable world, an anonymous user holds only local sessions. *)
Lemma reachable_anon_local (w : World) :
  reachable w -> w_auth w = false -> all_local (w_chat w).
Proof.
  induction 1 as [| w w' Hr IH Hs].
  - intros _ c [].
  - inversion Hs as [cs srv | cs srv | cs srv | auth cs srv env op]; subst; cbn -[local_chat is_local replace_by_id]; intros Ha.
    + discriminate.
    + unfold run, authEffect, bind, setChatHistories, update_current. cbn -[local_chat is_local replace_by_id].
      apply all_local_intro; cbn -[local_chat is_local replace_by_id].
      * intros c. destruct (currentChat cs) as [p|]; [| discriminate].
        destruct (is_local (h_id p)) eqn:E; [intros [= <-]; exact E | discriminate].
      * intros c Hin. apply filter_In in Hin as [_ E]. exact E.
    + discriminate.
    + subst auth. apply op_anon_local. apply IH. reflexivity.
Qed.

Lemma eff_bind_l {A B} (m : M A) (f : A -> M B) (s : ChatState) (e : Effect) :
  In e (snd (fst (m s))) -> In e (snd (fst (bind m f s))).
Proof.
  unfold bind. destruct (m s) as [[s1 l1] [a|]]; cbn; [| auto].
  destruct (f a s1) as [[s2 l2] r2]. cbn. intros H. apply in_or_app. left. exact H.
Qed.

Lemma eff_bind_r {A B} (m : M A) (f : A -> M B) (s s1 : ChatState) (l1 : list Effect) (a : A)
    (e : Effect) :
  m s = (s1, l1, Some a) -> In e (snd (fst (f a s1))) -> In e (snd (fst (bind m f s))).
Proof.
  unfold bind. intros ->. destruct (f a s1) as [[s2 l2] r2]. cbn.
  intros H. apply in_or_app. right. exact H.
Qed.

Lemma eff_try_catch_l {A} (m h : M A) (s : ChatState) (e : Effect) :
  In e (snd (fst (m s))) -> In e (snd (fst (try_catch m h s))).
Proof.
  unfold try_catch. destruct (m s) as [[s1 l1] [a|]]; cbn; [auto |].
  destruct (h s1) as [[s2 l2] r2]. cbn. intros H. apply in_or_app. left. exact H.
Qed.

Lemma eff_try_finally_l {A} (m : M A) (f : M unit) (s : ChatState) (e : Effect) :
  In e (snd (fst (m s))) -> In e (snd (fst (try_finally m f s))).
Proof.
  unfold try_finally. destruct (m s) as [[s1 l1] r].
  destruct (f s1) as [[s2 l2] r2]. cbn. intros H. apply in_or_app. left. exact H.
Qed.

Lemma eff_call {A} (c : ApiCall) (answer : option A) (s : ChatState) :
  In (Net c) (snd (fst (call c answer s))).
Proof. left. reflexivity. Qed.

(** The local path of [selectChat] issues no network call. *)
Lemma select_local_offline (auth : bool) (srv : ChatServer) (id : jstr) (s : ChatState) :
  is_local id = true -> existsb is_net (effects (selectChat auth srv id) s) = false.
Proof.
  intros H. unfold effects, selectChat, bind at 1, get. rewrite H.
  destruct (find_by_id id (chatHistories s)); reflexivity.
Qed.

(** The local path of [deleteChat] issues no network call. *)
Lemma delete_local_offline (auth : bool) (srv : ChatServer) (id : jstr) (s : ChatState) :
  is_local id = true -> existsb is_net (effects (deleteChat auth srv id) s) = false.
Proof.
  intros H. unfold effects, deleteChat, bind at 1, get. cbv beta. rewrite H.
  unfold bind, setChatHistories.
  destruct (match currentChat s with Some c => jeqb (h_id c) id | None => false end);
    reflexivity.
Qed.

(** A send to a local current chat issues no network call. *)
Lemma send_local_offline (auth : bool) (srv : ChatServer) (env : Env) (content : jstr)
    (s : ChatState) (c : ChatHistory) :
  currentChat s = Some c -> is_local (h_id c) = true ->
  existsb is_net (effects (sendMessage auth srv env content) s) = false.
Proof.
  intros Hc Hl. unfold effects.
  assert (Hres : resolveTarget auth srv env (currentChat s) s = (s, [], Some (Some c)))
    by (rewrite Hc; apply resolveTarget_current).
  rewrite (sendMessage_eq _ _ _ _ _ _ _ _ Hres). cbv zeta. unfold try_catch.
  rewrite dispatch_canned by (rewrite Hl, andb_false_r; reflexivity).
  reflexivity.
Qed.

(** The remote path of [selectChat] fetches the session's messages. *)
Lemma select_remote_online (srv : ChatServer) (id : jstr) (s : ChatState) :
  is_local id = false ->
  In (Net (GetChatMessages (parseInt id))) (effects (selectChat true srv id) s).
Proof.
  intros H. unfold effects, selectChat.
  apply (eff_bind_r _ _ s s [] s); [reflexivity |]. rewrite H. cbn [negb].
  apply eff_try_finally_l, eff_try_catch_l.
  apply (eff_bind_r _ _ s (mkState (chatHistories s) (currentChat s) true) [] tt);
    [reflexivity |].
  apply eff_bind_l, eff_call.
Qed.

(** The remote path of [deleteChat] issues the server-side delete. *)
Lemma delete_remote_online (srv : ChatServer) (id : jstr) (s : ChatState) :
  is_local id = false ->
  In (Net (DeleteChatSession (parseInt id))) (effects (deleteChat true srv id) s).
Proof.
  intros H. unfold effects, deleteChat.
  apply (eff_bind_r _ _ s s [] s); [reflexivity |]. cbv beta. rewrite H. cbn [negb].
  apply eff_try_catch_l, eff_bind_l, eff_call.
Qed.

(** A send to a remote current chat posts the message to the server. *)
Lemma send_remote_online (srv : ChatServer) (env : Env) (content : jstr)
    (s : ChatState) (c : ChatHistory) :
  currentChat s = Some c -> is_local (h_id c) = false ->
  In (Net (SendMessage (parseInt (h_id c)) content)) (effects (sendMessage true srv env content) s).
Proof.
  intros Hc Hl. unfold effects.
  assert (Hres : resolveTarget true srv env (currentChat s) s = (s, [], Some (Some c)))
    by (rewrite Hc; apply resolveTarget_current).
  rewrite (sendMessage_eq _ _ _ _ _ _ _ _ Hres). cbv zeta.
  match goal with
  | |- context [try_catch ?m ?h ?s2] =>
      assert (Hin : In (Net (SendMessage (parseInt (h_id c)) content))
                       (snd (fst (try_catch m h s2))))
  end.
  { apply eff_try_catch_l. unfold dispatch. rewrite Hl. cbn [andb negb].
    apply eff_bind_l, eff_call. }
  destruct (try_catch _ _ _) as [[s3 l3] r3]. exact Hin.
Qed.

(** Runs of whole callbacks. In every reachable world of [System.step],
    which runs each callback to completion, the id of every session held
    (the Directory and the current chat) decides the path of every
    operation on it. A "local-" id takes the local path under either
    authentication state: [selectChat] and [deleteChat] on it, and a
    [sendMessage] while it is current, issue no network call. A
    server-issued id only occurs while authenticated, and then takes the
    remote path: [selectChat] fetches its messages, [deleteChat] deletes it
    on the server, and [sendMessage] while it is current posts to it.
    No operation renames a session: the ids of the Directory after any
    operation are at most one new id followed by a subsequence of the ids
    before it. *)
Theorem atomic_namespace_decides_path (w : World) (Hreach : reachable w)
    (srv : ChatServer) (env : Env) (content : jstr)
    (c : ChatHistory) (Hc : In c (sessions (w_chat w))) :
  (is_local (h_id c) = true ->
     existsb is_net (effects (selectChat (w_auth w) srv (h_id c)) (w_chat w)) = false /\
     existsb is_net (effects (deleteChat (w_auth w) srv (h_id c)) (w_chat w)) = false /\
     (currentChat (w_chat w) = Some c ->
        existsb is_net (effects (sendMessage (w_auth w) srv env content) (w_chat w)) = false)) /\
  (is_local (h_id c) = false ->
     w_auth w = true /\
     In (Net (GetChatMessages (parseInt (h_id c))))
        (effects (selectChat (w_auth w) srv (h_id c)) (w_chat w)) /\
     In (Net (DeleteChatSession (parseInt (h_id c))))
        (effects (deleteChat (w_auth w) srv (h_id c)) (w_chat w)) /\
     (currentChat (w_chat w) = Some c ->
        In (Net (SendMessage (parseInt (h_id c)) content))
           (effects (sendMessage (w_auth w) srv env content) (w_chat w)))) /\
  (forall op : Op, exists (pre : list jstr) (keep : jstr -> bool),
     (length pre <= 1)%nat /\
     map h_id (chatHistories (run (run_op (w_auth w) srv env op) (w_chat w))) =
       app pre (filter keep (map h_id (chatHistories (w_chat w))))).
Proof.
  split; [| split].
  - intros Hl. split; [| split].
    + apply select_local_offline, Hl.
    + apply delete_local_offline, Hl.
    + intros Hcur. apply (send_local_offline _ _ _ _ _ c Hcur Hl).
  - intros Hl.
    assert (Ha : w_auth w = true).
    { destruct (w_auth w) eqn:E; [reflexivity |].
      pose proof (reachable_anon_local w Hreach E c Hc) as Hloc. congruence. }
    rewrite Ha. split; [reflexivity | split; [| split]].
    + apply select_remote_online, Hl.
    + apply delete_remote_online, Hl.
    + intros Hcur. apply (send_remote_online _ _ _ _ c Hcur Hl).
  - intros op. apply op_keeps_ids.
Qed.

Lemma atomic_namespace_decides_path_example :
  reachable (mkWorld true (run (authEffect true srv_ok) empty_state)) /\
  In chat5 (sessions (run (authEffect true srv_ok) empty_state)) /\
  is_local (h_id chat5) = false /\
  In (Net (GetChatMessages (parseInt (h_id chat5))))
     (effects (selectChat true srv_ok (h_id chat5)) (run (authEffect true srv_ok) empty_state)).
Proof.
  assert (Hr : reachable (mkWorld true (run (authEffect true srv_ok) empty_state)))
    by (apply (reach_step (mkWorld false empty_state)); [apply reach_init | apply step_login]).
  assert (Hc : In chat5 (sessions (run (authEffect true srv_ok) empty_state)))
    by (vm_compute; right; left; reflexivity).
  assert (Hl : is_local (h_id chat5) = false) by reflexivity.
  split; [exact Hr | split; [exact Hc | split; [exact Hl |]]].
  destruct (atomic_namespace_decides_path _ Hr srv_ok env0 (js "Hi") chat5 Hc) as [_ [Hremote _]].
  apply Hremote. exact Hl.
Qed.

(** The split of [loadChatSessions] at its first [await], run without
    anything in between, is [loadChatSessions] itself. *)
Lemma loadChatSessions_split (srv : ChatServer) (s : ChatState) :
  loadChatSessions true srv s =
    (let '(s1, l1, _) := loadChatSessions_start s in
     let '(s2, l2, r2) := loadChatSessions_resume srv (currentChat s) (sv_sessions srv) s1 in
     (s2, app l1 l2, r2)).
Proof.
  unfold loadChatSessions, loadChatSessions_start, loadChatSessions_resume,
    try_finally, try_catch, issue, settle, call, setIsLoading, get, bind, ret.
  cbn [negb].
  destruct (sv_sessions srv) as [[| session0 sessions] |]; cbn; try reflexivity.
  destruct (currentChat s); cbn; [reflexivity |].
  destruct (sv_messages srv _); reflexivity.
Qed.

(** Claim C8. A [loadChatSessions] started while logged in can settle
    after a logout, since [ChatProvider] stays mounted across it. The
    run: login (the load sets the current chat, so the effect runs the
    load again and it issues [getChatSessions]), logout (the Directory
    keeps only local chats, the current chat is dropped, and the effect
    runs once more for the new [loadChatSessions]), then the pending
    call resolves. The load puts the server session "5" back into the
    Directory while anonymous and, having captured a current chat, does
    not touch the current chat, so no effect runs again. From there,
    [selectChat] and [deleteChat] on "5" issue no call and change
    nothing: a server-issued id is held while anonymous, and it does not
    take the remote path. The two halves of the split, run back to back,
    are [loadChatSessions] itself. *)
Theorem C8_stale_load_after_logout :
  (forall (srv : ChatServer) (s : ChatState),
     run (loadChatSessions_resume srv (currentChat s) (sv_sessions srv))
         (run loadChatSessions_start s) = run (loadChatSessions true srv) s /\
     app (effects loadChatSessions_start s)
         (effects (loadChatSessions_resume srv (currentChat s) (sv_sessions srv))
                  (run loadChatSessions_start s))
       = effects (loadChatSessions true srv) s) /\
  (let s0 := run (authEffect true srv_ok) empty_state in
   let s1 := run loadChatSessions_start s0 in
   let s2 := run (authEffect false srv_ok) s1 in
   let s3 := run (authEffect false srv_ok) s2 in
   let resume := loadChatSessions_resume srv_ok (currentChat s0) (sv_sessions srv_ok) in
   let s4 := run resume s3 in
   currentChat s0 <> None /\
   effects loadChatSessions_start s0 = [Net GetChatSessions] /\
   chatHistories s3 = [] /\ currentChat s3 = None /\
   effects resume s3 = [] /\
   currentChat s4 = currentChat s3 /\
   chatHistories s4 = [chat5] /\ is_local (h_id chat5) = false /\
   isLoading s4 = false /\
   (forall srv : ChatServer,
      selectChat false srv (h_id chat5) s4 = (s4, [], Some tt) /\
      deleteChat false srv (h_id chat5) s4 = (s4, [], Some tt))).
Proof.
  split.
  - intros srv s. unfold run, effects. rewrite loadChatSessions_split.
    destruct (loadChatSessions_start s) as [[s1 l1] r1]. cbn [fst snd].
    destruct (loadChatSessions_resume _ _ _ s1) as [[s2 l2] r2].
    split; reflexivity.
  - vm_compute. repeat (split || intro); try discriminate; reflexivity.
Qed.

End ChatFacts.

(* ================================================================== *)
(** * Further properties of the request executor and the service *)

Module ApiExtraFacts.
Import ApiService ApiScenarios.

Lemma request_ok_at (fuel : nat) (srv : Server) (st : ApiState) (ep : string) (o : Options)
    (status : Z) (j : Json) :
  (forall h c, fc_url c = API_BASE_URL ++ ep -> srv h c = Http status (Some j)) ->
  response_ok status = true ->
  request (S fuel) srv st ep o = (with_calls st (app (calls st) [first_call st ep o]), Ok j).
Proof.
  intros Hs Hok. cbn [request]. unfold fetch. rewrite Hs by reflexivity.
  rewrite Hok. reflexivity.
Qed.

Lemma request_net_at (fuel : nat) (srv : Server) (st : ApiState) (ep : string) (o : Options)
    (m : string) :
  (forall h c, fc_url c = API_BASE_URL ++ ep -> srv h c = NetworkError m) ->
  request (S fuel) srv st ep o =
    (with_calls st (app (calls st) [first_call st ep o]), Fail (outer_catch (mkErr KTypeError m))).
Proof.
  intros Hs. cbn [request]. unfold fetch. rewrite Hs by reflexivity. reflexivity.
Qed.

Lemma outer_catch_http_error (body : option Json) (status : Z) :
  outer_catch (http_error body status) = http_error body status.
Proof. destruct body as [[] |]; reflexivity. Qed.

Lemma api_login_ok (fuel : nat) (srv : Server) (st : ApiState) (email password : string) (R : Json) :
  (forall h c, fc_url c = API_BASE_URL ++ "/auth/login" -> srv h c = Http 200 (Some R)) ->
  R <> JNull ->
  ApiService.login (S fuel) srv st email password =
    (mkApi (token_field R "access_token") (ls_value (token_field R "access_token"))
       (ls_value (token_field R "refresh_token"))
       (app (calls st) [first_call st "/auth/login" (mkOptions "POST" (Some (login_body email password)))]),
     Ok R).
Proof.
  intros Hs HR. unfold ApiService.login. rewrite (request_ok_at _ _ _ _ _ 200 R Hs eq_refl).
  destruct R; [congruence | reflexivity ..].
Qed.

(** With no access token, a request makes exactly one fetch, without an
    Authorization header, never tries a refresh, leaves the token store
    as it is and returns. *)
Theorem X_request_without_token (fuel : nat) (srv : Server) (st : ApiState)
    (ep : string) (o : Options) (Hnotok : js_truthy (accessToken st) = false) :
  let res := request (S fuel) srv st ep o in
  calls (fst res) = app (calls st) [mkCall (API_BASE_URL ++ ep) (opt_method o) None (opt_body o)] /\
  accessToken (fst res) = accessToken st /\ ls_access (fst res) = ls_access st /\
  ls_refresh (fst res) = ls_refresh st /\ snd res <> Stuck.
Proof.
  cbn zeta. cbn [request]. rewrite Hnotok. unfold fetch.
  destruct (srv (calls st) _) as [m | status body].
  - cbn. repeat split; discriminate.
  - cbn [accessToken]. rewrite Hnotok, andb_false_r.
    destruct (response_ok status).
    + cbn. repeat split. destruct body; discriminate.
    + cbn. repeat split. discriminate.
Qed.

Lemma X_request_without_token_witness :
  js_truthy (accessToken (init_api None None)) = false /\
  calls (fst (request 1 srv_expired (init_api None None) "/chat/sessions" GET)) =
    [mkCall (API_BASE_URL ++ "/chat/sessions") "GET" None None].
Proof.
  split; [reflexivity |].
  exact (proj1 (X_request_without_token 0 srv_expired (init_api None None) "/chat/sessions" GET eq_refl)).
Defined.


(** When the backend cannot be reached (every fetch rejects with a
    [TypeError]), a request fails with the connectivity error if the
    browser's message mentions "fetch", and otherwise with the
    [TypeError] itself; the token store is left as it is. *)
Theorem X_request_network_failure (fuel : nat) (srv : Server) (st : ApiState)
    (ep : string) (o : Options) (m : string)
    (Hdown : forall h c, srv h c = NetworkError m) :
  let res := request (S fuel) srv st ep o in
  snd res =
    Fail (if includes m "fetch"
          then mkErr KError ("Backend server is not running. Please check if the backend server is running on " ++ API_BASE_URL)
          else mkErr KTypeError m) /\
  accessToken (fst res) = accessToken st /\ ls_access (fst res) = ls_access st /\
  ls_refresh (fst res) = ls_refresh st.
Proof.
  cbn zeta. cbn [request]. unfold fetch. rewrite Hdown. cbn.
  unfold outer_catch. cbn [err_kind err_msg].
  destruct (includes m "fetch"); repeat split.
Qed.

Lemma X_request_network_failure_witness :
  (forall h c, srv_unreachable h c = NetworkError "Failed to fetch") /\
  snd (request 1 srv_unreachable st_logged_in "/auth/me" GET) =
    Fail (mkErr KError ("Backend server is not running. Please check if the backend server is running on " ++ API_BASE_URL)).
Proof.
  split; [reflexivity |].
  exact (proj1 (X_request_network_failure 0 srv_unreachable st_logged_in "/auth/me" GET
                  "Failed to fetch" (fun _ _ => eq_refl))).
Defined.


(** A failed response other than a 401 on a logged-in session: the
    request makes one fetch and fails with the body's [detail] (or
    "HTTP error! status: N"), leaving the token store as it is. A [null]
    error body fails instead with the [TypeError] of reading its
    [detail], which the outer [catch] rethrows unchanged. *)
Theorem X_request_http_error (fuel : nat) (srv : Server) (st : ApiState)
    (ep : string) (o : Options) (status : Z) (body : option Json)
    (Hans : forall c, srv (calls st) c = Http status body)
    (Hbad : response_ok status = false)
    (Hnot401 : Z.eqb status 401 && js_truthy (accessToken st) = false) :
  let res := request (S fuel) srv st ep o in
  snd res = Fail (match body with
                  | Some JNull => mkErr KTypeError "Cannot read properties of null (reading 'detail')"
                  | _ => mkErr KError (detail_message body status)
                  end) /\
  length (calls (fst res)) = S (length (calls st)) /\
  accessToken (fst res) = accessToken st /\ ls_access (fst res) = ls_access st /\
  ls_refresh (fst res) = ls_refresh st.
Proof.
  cbn zeta. cbn [request]. unfold fetch. rewrite Hans. cbn [accessToken].
  rewrite Hbad, Hnot401. cbn -[http_error outer_catch]. rewrite outer_catch_http_error.
  rewrite length_app. cbn -[http_error].
  split; [destruct body as [[] |]; reflexivity |]. repeat split. lia.
Qed.

Lemma X_request_http_error_witness :
  (forall c, srv_404 (calls st_logged_in) c = Http 404 (Some (JObj [("detail", JStr "Session not found")]))) /\
  response_ok 404 = false /\ Z.eqb 404 401 && js_truthy (accessToken st_logged_in) = false /\
  snd (request 1 srv_404 st_logged_in "/chat/sessions/9/messages" GET) =
    Fail (mkErr KError "Session not found").
Proof.
  split; [reflexivity | split; [reflexivity | split; [reflexivity |]]].
  exact (proj1 (X_request_http_error 0 srv_404 st_logged_in "/chat/sessions/9/messages" GET 404
                  (Some (JObj [("detail", JStr "Session not found")])) (fun _ => eq_refl) eq_refl eq_refl)).
Defined.


(** A 401 while an access token is held but no refresh token is stored:
    the store is cleared and the request fails with "Authentication
    required", after a single fetch. *)
Theorem X_request_401_without_refresh_token (fuel : nat) (srv : Server) (st : ApiState)
    (ep : string) (o : Options) (body : option Json)
    (Htok : js_truthy (accessToken st) = true)
    (Hnoref : truthy (ls_refresh st) = false)
    (H401 : forall c, srv (calls st) c = Http 401 body) :
  let res := request (S fuel) srv st ep o in
  snd res = Fail auth_required /\
  accessToken (fst res) = Some JNull /\ ls_access (fst res) = None /\ ls_refresh (fst res) = None /\
  length (calls (fst res)) = S (length (calls st)).
Proof.
  cbn zeta. cbn [request]. unfold fetch. rewrite H401. cbn [accessToken ls_refresh].
  rewrite Htok, Hnoref. cbn. rewrite length_app. cbn. repeat split. lia.
Qed.

Lemma X_request_401_without_refresh_token_witness :
  js_truthy (accessToken (init_api (Some "a1") None)) = true /\
  truthy (ls_refresh (init_api (Some "a1") None)) = false /\
  snd (request 1 srv_expired (init_api (Some "a1") None) "/chat/sessions" GET) = Fail auth_required.
Proof.
  split; [reflexivity | split; [reflexivity |]].
  exact (proj1 (X_request_401_without_refresh_token 0 srv_expired (init_api (Some "a1") None)
                  "/chat/sessions" GET _ eq_refl eq_refl (fun _ => eq_refl))).
Defined.


(** A 401 on a logged-in session whose refresh succeeds: one refresh
    call carrying the stored refresh token, then one retry carrying the
    new access token; the request resolves to the retry's body and the
    store holds the new pair. *)
Theorem X_request_refresh_then_retry (fuel : nat) (srv : Server) (st : ApiState)
    (ep : string) (o : Options) (rt a2 r2 : string) (b1 : option Json) (j : Json)
    (Htok : js_truthy (accessToken st) = true)
    (Hrt : ls_refresh st = Some rt) (Hrt' : rt <> "")
    (H1 : forall h c, length h = length (calls st) -> srv h c = Http 401 b1)
    (H2 : forall h c, length h = S (length (calls st)) ->
          srv h c = Http 200 (Some (JObj [("access_token", JStr a2); ("refresh_token", JStr r2)])))
    (H3 : forall h c, length h = S (S (length (calls st))) -> srv h c = Http 200 (Some j)) :
  let res := request (S (S (S fuel))) srv st ep o in
  snd res = Ok j /\
  accessToken (fst res) = Some (JStr a2) /\ ls_access (fst res) = Some a2 /\ ls_refresh (fst res) = Some r2 /\
  exists c1, calls (fst res) =
    app (calls st)
      [c1;
       mkCall (API_BASE_URL ++ "/auth/refresh") "POST" (Some (bearer (accessToken st)))
              (Some (JObj [("refresh_token", JStr rt)]));
       mkCall (API_BASE_URL ++ ep) (opt_method o) (Some ("Bearer " ++ a2)) (opt_body o)].
Proof.
  assert (Hrtt : truthy (Some rt) = true)
    by (cbn; destruct (String.eqb rt "") eqn:E; [apply String.eqb_eq in E; contradiction | reflexivity]).
  cbn zeta. cbn [request]. unfold fetch. rewrite H1 by reflexivity.
  cbn [accessToken ls_refresh calls]. rewrite Htok, Hrt, Hrtt.
  cbn [response_ok Z.leb Z.eqb andb negb refreshToken ls_refresh]. rewrite Hrtt. cbn [negb].
  cbn [request accessToken calls]. rewrite Htok. unfold fetch.
  rewrite H2 by (cbn [calls]; rewrite ?length_app; cbn; lia).
  cbn. rewrite H3 by (cbn [calls]; rewrite ?length_app; cbn; lia).
  cbn -[app]. repeat split.
  eexists. rewrite <- !app_assoc. reflexivity.
Qed.

Lemma X_request_refresh_then_retry_witness :
  js_truthy (accessToken st_logged_in) = true /\ ls_refresh st_logged_in = Some "r1" /\
  snd (request 3 srv_refresh_ok st_logged_in "/chat/sessions" GET) = Ok (JArr []) /\
  accessToken (fst (request 3 srv_refresh_ok st_logged_in "/chat/sessions" GET)) = Some (JStr "a2").
Proof.
  assert (Hne : "r1" <> "") by discriminate.
  destruct (X_request_refresh_then_retry 0 srv_refresh_ok st_logged_in "/chat/sessions" GET
              "r1" "a2" "r2" None (JArr []) eq_refl eq_refl Hne)
    as [Hr [Ha _]].
  - intros h c Hh. unfold srv_refresh_ok. rewrite Hh. reflexivity.
  - intros h c Hh. unfold srv_refresh_ok. rewrite Hh. reflexivity.
  - intros h c Hh. unfold srv_refresh_ok. rewrite Hh. reflexivity.
  - split; [reflexivity | split; [reflexivity | split; [exact Hr | exact Ha]]].
Defined.


Lemma list_ascii_app (x y : string) :
  list_ascii_of_string (x ++ y) = app (list_ascii_of_string x) (list_ascii_of_string y).
Proof. induction x as [| a x IH]; cbn; [reflexivity | now rewrite IH]. Qed.

Lemma str_app_assoc (x y z : string) : (x ++ y) ++ z = x ++ (y ++ z).
Proof. induction x as [| a x IH]; cbn; [reflexivity | now rewrite IH]. Qed.

Lemma split_on_app (c : ascii) (x y : string) :
  ~ In c (list_ascii_of_string x) ->
  FormUrlencoded.split_on c (x ++ String c y) = x :: FormUrlencoded.split_on c y.
Proof.
  induction x as [| a x IH]; intros Hx; cbn.
  - rewrite Ascii.eqb_refl. reflexivity.
  - cbn in Hx. destruct (Ascii.eqb a c) eqn:E.
    + apply Ascii.eqb_eq in E. subst. exfalso. apply Hx. left. reflexivity.
    + rewrite IH by (intros H; apply Hx; right; exact H). reflexivity.
Qed.

Lemma split_on_none (c : ascii) (x : string) :
  ~ In c (list_ascii_of_string x) -> FormUrlencoded.split_on c x = [x].
Proof.
  induction x as [| a x IH]; intros Hx; cbn; [reflexivity |].
  cbn in Hx. destruct (Ascii.eqb a c) eqn:E.
  - apply Ascii.eqb_eq in E. subst. exfalso. apply Hx. left. reflexivity.
  - rewrite IH by (intros H; apply Hx; right; exact H). reflexivity.
Qed.

Lemma split_first_app (c : ascii) (x y : string) :
  ~ In c (list_ascii_of_string x) -> FormUrlencoded.split_first c (x ++ String c y) = (x, y).
Proof.
  induction x as [| a x IH]; intros Hx; cbn.
  - rewrite Ascii.eqb_refl. reflexivity.
  - cbn in Hx. destruct (Ascii.eqb a c) eqn:E.
    + apply Ascii.eqb_eq in E. subst. exfalso. apply Hx. left. reflexivity.
    + rewrite IH by (intros H; apply Hx; right; exact H). reflexivity.
Qed.

Lemma nat_of_ascii_bound (a : ascii) : (nat_of_ascii a < 256)%nat.
Proof. apply nat_ascii_bounded. Qed.

Lemma hex_digit_nat (d : nat) :
  (d < 16)%nat ->
  nat_of_ascii (hex_digit d) = (if Nat.ltb d 10 then 48 + d else 55 + d)%nat.
Proof.
  intros Hd. unfold hex_digit. apply nat_ascii_embedding.
  destruct (Nat.ltb d 10); lia.
Qed.

Lemma hex_val_digit (d : nat) :
  (d < 16)%nat -> FormUrlencoded.hex_val (hex_digit d) = Some d.
Proof.
  intros Hd. unfold FormUrlencoded.hex_val. rewrite hex_digit_nat by exact Hd.
  destruct (Nat.ltb d 10) eqn:E.
  - apply Nat.ltb_lt in E.
    replace (Nat.leb 48 (48 + d) && Nat.leb (48 + d) 57) with true
      by (symmetry; apply andb_true_iff; split; apply Nat.leb_le; lia).
    f_equal. lia.
  - apply Nat.ltb_ge in E.
    replace (Nat.leb 48 (55 + d) && Nat.leb (55 + d) 57) with false
      by (symmetry; apply andb_false_iff; right; apply Nat.leb_gt; lia).
    replace (Nat.leb 65 (55 + d) && Nat.leb (55 + d) 70) with true
      by (symmetry; apply andb_true_iff; split; apply Nat.leb_le; lia).
    f_equal. lia.
Qed.

(** The characters [form_encode] emits: "+", "%", hexadecimal digits and
    the unreserved bytes. *)
Lemma form_encode_chars (s : string) (a : ascii) :
  In a (list_ascii_of_string (form_encode s)) ->
  nat_of_ascii a = 43%nat \/ nat_of_ascii a = 37%nat \/
  (48 <= nat_of_ascii a <= 57)%nat \/ (65 <= nat_of_ascii a <= 70)%nat \/
  form_unreserved (nat_of_ascii a) = true.
Proof.
  induction s as [| b s IH]; cbn [form_encode list_ascii_of_string In]; [intros [] |].
  destruct (Nat.eqb (nat_of_ascii b) 32) eqn:E32; [| destruct (form_unreserved (nat_of_ascii b)) eqn:Eu];
    cbn [list_ascii_of_string In].
  - intros [<- | H]; [left; reflexivity | auto].
  - intros [<- | H]; [right; right; right; right; exact Eu | auto].
  - pose proof (nat_of_ascii_bound b) as Hb.
    intros [<- | [<- | [<- | H]]]; [right; left; reflexivity | | | auto].
    + rewrite hex_digit_nat by (apply Nat.Div0.div_lt_upper_bound; lia).
      destruct (Nat.ltb _ 10) eqn:E; [apply Nat.ltb_lt in E | apply Nat.ltb_ge in E]; right; right;
        [left | right; left]; (split; [lia |]);
        assert (nat_of_ascii b / 16 < 16)%nat by (apply Nat.Div0.div_lt_upper_bound; lia); lia.
    + rewrite hex_digit_nat by (apply Nat.mod_upper_bound; lia).
      destruct (Nat.ltb _ 10) eqn:E; [apply Nat.ltb_lt in E | apply Nat.ltb_ge in E]; right; right;
        [left | right; left]; (split; [lia |]);
        assert (nat_of_ascii b mod 16 < 16)%nat by (apply Nat.mod_upper_bound; lia); lia.
Qed.

Lemma form_encode_no (c : ascii) (s : string) :
  nat_of_ascii c <> 43%nat -> nat_of_ascii c <> 37%nat ->
  (nat_of_ascii c < 48 \/ 57 < nat_of_ascii c)%nat ->
  (nat_of_ascii c < 65 \/ 70 < nat_of_ascii c)%nat ->
  form_unreserved (nat_of_ascii c) = false ->
  ~ In c (list_ascii_of_string (form_encode s)).
Proof.
  intros H1 H2 H3 H4 H5 Hin.
  destruct (form_encode_chars s c Hin) as [E | [E | [E | [E | E]]]];
    [lia | lia | lia | lia | congruence].
Qed.

Lemma no_amp_piece (k v : string) :
  ~ In "&"%char (list_ascii_of_string (form_encode k ++ "=" ++ form_encode v)).
Proof.
  rewrite !list_ascii_app. intros H. apply in_app_or in H as [H | H].
  - revert H. apply form_encode_no; cbn; try lia; reflexivity.
  - cbn in H. destruct H as [H | H]; [discriminate |].
    revert H. apply form_encode_no; cbn; try lia; reflexivity.
Qed.

Lemma no_eq_encoded (k : string) : ~ In "="%char (list_ascii_of_string (form_encode k)).
Proof. apply form_encode_no; cbn; try lia; reflexivity. Qed.

Lemma decode_encode (s : string) :
  FormUrlencoded.percent_decode (FormUrlencoded.plus_to_space (form_encode s)) = s.
Proof.
  induction s as [| b s IH]; [reflexivity |].
  cbn [form_encode]. pose proof (nat_of_ascii_bound b) as Hb.
  destruct (Nat.eqb (nat_of_ascii b) 32) eqn:E32; [| destruct (form_unreserved (nat_of_ascii b)) eqn:Eu].
  - cbn. rewrite IH. apply Nat.eqb_eq in E32.
    f_equal. rewrite <- (ascii_nat_embedding b). rewrite E32. reflexivity.
  - assert (Hp : Ascii.eqb b "+" = false).
    { destruct (Ascii.eqb b "+") eqn:E; [| reflexivity]. apply Ascii.eqb_eq in E. subst. discriminate. }
    assert (Hq : Ascii.eqb b "%" = false).
    { destruct (Ascii.eqb b "%") eqn:E; [| reflexivity]. apply Ascii.eqb_eq in E. subst. discriminate. }
    cbn [FormUrlencoded.plus_to_space FormUrlencoded.percent_decode]. rewrite Hp, Hq. rewrite IH. reflexivity.
  - assert (Hhi : (nat_of_ascii b / 16 < 16)%nat) by (apply Nat.Div0.div_lt_upper_bound; lia).
    assert (Hlo : (nat_of_ascii b mod 16 < 16)%nat) by (apply Nat.mod_upper_bound; lia).
    assert (Hnp : forall d, (d < 16)%nat -> Ascii.eqb (hex_digit d) "+" = false).
    { intros d Hd. destruct (Ascii.eqb (hex_digit d) "+") eqn:E; [| reflexivity].
      apply Ascii.eqb_eq in E. apply (f_equal nat_of_ascii) in E. rewrite hex_digit_nat in E by exact Hd.
      destruct (Nat.ltb d 10); cbn in E; lia. }
    cbn [FormUrlencoded.plus_to_space]. rewrite (Hnp _ Hhi), (Hnp _ Hlo).
    cbn [FormUrlencoded.percent_decode]. rewrite Ascii.eqb_refl.
    rewrite (hex_val_digit _ Hhi), (hex_val_digit _ Hlo). rewrite IH. f_equal.
    rewrite <- (ascii_nat_embedding b) at 3. f_equal.
    pose proof (Nat.div_mod_eq (nat_of_ascii b) 16). lia.
Qed.

Lemma parse_pieces (ps : list (string * string)) :
  filter (fun piece => negb (String.eqb piece "")) (FormUrlencoded.split_on "&" (serialize ps)) =
  map (fun kv => form_encode (fst kv) ++ "=" ++ form_encode (snd kv)) ps.
Proof.
  induction ps as [| [k v] r IH]; [reflexivity |].
  assert (Hne : String.eqb (form_encode k ++ "=" ++ form_encode v) "" = false)
    by (destruct (form_encode k); reflexivity).
  destruct r as [| kv' r'].
  - cbn [serialize]. rewrite split_on_none by apply no_amp_piece. cbn [filter]. rewrite Hne. reflexivity.
  - replace (serialize ((k, v) :: kv' :: r'))
      with ((form_encode k ++ "=" ++ form_encode v) ++ String "&" (serialize (kv' :: r')))
      by (cbn [serialize]; rewrite !str_app_assoc; reflexivity).
    rewrite split_on_app by apply no_amp_piece. cbn [filter]. rewrite Hne. cbn [negb].
      rewrite IH. reflexivity.
Qed.

(** The query string of [getAllReports] is read back by the server as
    exactly the parameters the client appended: a status filter when one
    other than "all" is given, a search text when one is given, whatever
    characters they contain; without either, the endpoint carries no
    query at all. *)
Theorem X_reports_query_round_trip (statusFilter search : option string) :
  reports_endpoint statusFilter search =
    match report_params statusFilter search with
    | [] => "/api/reports"
    | _ => "/api/reports?" ++ serialize (report_params statusFilter search)
    end /\
  FormUrlencoded.parse (serialize (report_params statusFilter search)) =
    report_params statusFilter search.
Proof.
  split.
  - unfold reports_endpoint. cbv zeta.
    destruct (report_params statusFilter search) as [| [k v] r]; [reflexivity |].
    replace (String.eqb (serialize ((k, v) :: r)) "") with false; [reflexivity |].
    destruct r; cbn [serialize]; destruct (form_encode k); reflexivity.
  - unfold FormUrlencoded.parse. rewrite parse_pieces, map_map.
    induction (report_params statusFilter search) as [| [k v] r IH]; [reflexivity |].
    cbn [map fst snd]. rewrite IH.
    change ("=" ++ form_encode v) with (String "=" (form_encode v)).
    rewrite split_first_app by apply no_eq_encoded.
    rewrite !decode_encode. reflexivity.
Qed.

Lemma createReportWithFiles_state (srv : Server) (st : ApiState) :
  fst (createReportWithFiles srv st) =
  mkApi (accessToken st) (ls_access st) (ls_refresh st)
    (app (calls st) [mkCall (API_BASE_URL ++ "/api/reports") "POST" None None]).
Proof.
  unfold createReportWithFiles, fetch.
  destruct (srv _ _) as [m | status body]; [reflexivity |]. cbn zeta.
  destruct (response_ok status); [reflexivity |].
  destruct body as [j |]; [| reflexivity].
  destruct j; try reflexivity;
    destruct (field _ "detail") as [d |]; try destruct (json_truthy d); reflexivity.
Qed.

(** [createReportWithFiles] goes around the executor: one fetch without
    an Authorization header, the token store untouched whatever the
    answer (a 401 neither refreshes nor logs out), a network failure
    surfacing as the raw [TypeError], and a failure with no JSON body
    reported as "Failed to submit report". *)
Theorem X_createReportWithFiles_bypasses_executor (srv : Server) (st : ApiState) :
  let c := mkCall (API_BASE_URL ++ "/api/reports") "POST" None None in
  let res := createReportWithFiles srv st in
  calls (fst res) = app (calls st) [c] /\
  accessToken (fst res) = accessToken st /\ ls_access (fst res) = ls_access st /\
  ls_refresh (fst res) = ls_refresh st /\
  (forall m, srv (calls st) c = NetworkError m -> snd res = Fail (mkErr KTypeError m)) /\
  (forall status, response_ok status = false -> srv (calls st) c = Http status None ->
     snd res = Fail (mkErr KError "Failed to submit report")).
Proof.
  cbn zeta.
  rewrite (createReportWithFiles_state srv st).
  cbn [calls accessToken ls_access ls_refresh].
  repeat split.
  - intros m E. unfold createReportWithFiles, fetch. rewrite E. reflexivity.
  - intros status Hbad E. unfold createReportWithFiles, fetch. rewrite E. cbn zeta.
    rewrite Hbad. reflexivity.
Qed.

Lemma X_createReportWithFiles_bypasses_executor_witness :
  srv_unreachable [] (mkCall (API_BASE_URL ++ "/api/reports") "POST" None None) = NetworkError "Failed to fetch" /\
  snd (createReportWithFiles srv_unreachable (init_api None None)) = Fail (mkErr KTypeError "Failed to fetch").
Proof.
  split; [reflexivity |].
  exact (proj1 (proj2 (proj2 (proj2 (proj2 (X_createReportWithFiles_bypasses_executor srv_unreachable
           (init_api None None)))))) "Failed to fetch" eq_refl).
Defined.

End ApiExtraFacts.

Module AuthExtraFacts.
Import ApiService ApiScenarios ApiExtraFacts AuthProvider.

Lemma truthy_some (a : string) : a <> "" -> truthy (Some a) = true.
Proof.
  intros Ha. cbn. destruct (String.eqb a "") eqn:E; [apply String.eqb_eq in E; congruence | reflexivity].
Qed.

Lemma js_truthy_str (a : string) : a <> "" -> js_truthy (Some (JStr a)) = true.
Proof. exact (truthy_some a). Qed.

(** A successful login: the credentials are posted, the profile is then
    fetched with the new token, and the provider ends authenticated with
    that profile, no error, not loading, and both tokens in
    localStorage. *)
Theorem X_login_success (fuel : nat) (srv : Server) (v : AuthView) (email password : string)
    (R U : Json) (a : string)
    (Hlogin : forall h c, fc_url c = API_BASE_URL ++ "/auth/login" -> srv h c = Http 200 (Some R))
    (Hme : forall h c, fc_url c = API_BASE_URL ++ "/auth/me" -> srv h c = Http 200 (Some U))
    (HR : R <> JNull) (Ha : token_field R "access_token" = Some (JStr a)) (Ha' : a <> "")
    (HU : json_truthy U = true) :
  let res := AuthProvider.login (S fuel) srv v email password in
  snd res = Ok JNull /\ user (v_auth (fst res)) = Some U /\
  AuthProvider.isAuthenticated (v_auth (fst res)) = true /\
  error (fst res) = None /\ isLoading (fst res) = false /\
  ls_access (api (v_auth (fst res))) = Some a /\
  ls_refresh (api (v_auth (fst res))) = ls_value (token_field R "refresh_token") /\
  calls (api (v_auth (fst res))) =
    app (calls (api (v_auth v)))
      [first_call (api (v_auth v)) "/auth/login" (mkOptions "POST" (Some (login_body email password)));
       mkCall (API_BASE_URL ++ "/auth/me") "GET" (Some ("Bearer " ++ a)) None].
Proof.
  cbn zeta. unfold AuthProvider.login. rewrite (api_login_ok _ _ _ _ _ R Hlogin HR).
  unfold getCurrentUser. rewrite (request_ok_at _ _ _ _ _ 200 U Hme eq_refl).
  unfold with_calls.
  cbn [fst snd v_auth user api error isLoading with_calls calls ls_access ls_refresh accessToken].
  unfold AuthProvider.isAuthenticated, ApiService.isAuthenticated, first_call.
  cbn [user api accessToken opt_method opt_body]. rewrite HU, Ha, (js_truthy_str a Ha').
  repeat split. rewrite <- app_assoc. reflexivity.
Qed.

Lemma X_login_success_witness :
  (forall h c, fc_url c = API_BASE_URL ++ "/auth/login" ->
     srv_auth h c = Http 200 (Some (JObj [("access_token", JStr "a1"); ("refresh_token", JStr "r1");
                                          ("token_type", JStr "bearer")]))) /\
  AuthProvider.isAuthenticated
    (v_auth (fst (AuthProvider.login 1 srv_auth (mkView (startup None None) None false)
                    "u@example.org" "pw"))) = true.
Proof.
  assert (Hl : forall h c, fc_url c = API_BASE_URL ++ "/auth/login" ->
     srv_auth h c = Http 200 (Some (JObj [("access_token", JStr "a1"); ("refresh_token", JStr "r1");
                                          ("token_type", JStr "bearer")])))
    by (intros h c Hc; unfold srv_auth; rewrite Hc; reflexivity).
  split; [exact Hl |].
  exact (proj1 (proj2 (proj2 (X_login_success 0 srv_auth (mkView (startup None None) None false)
           "u@example.org" "pw" _ user_u "a1" Hl
           (fun h c Hc => ltac:(unfold srv_auth; rewrite Hc; reflexivity))
           ltac:(discriminate) eq_refl ltac:(discriminate) eq_refl)))).
Defined.

(** A login survives a page reload: a provider mounted from the tokens
    the login stored runs [checkAuth], which fetches the profile with the
    stored token and restores the same user. *)
Theorem X_login_survives_reload (fuel : nat) (srv : Server) (v : AuthView) (email password : string)
    (R U : Json) (a : string)
    (Hlogin : forall h c, fc_url c = API_BASE_URL ++ "/auth/login" -> srv h c = Http 200 (Some R))
    (Hme : forall h c, fc_url c = API_BASE_URL ++ "/auth/me" -> srv h c = Http 200 (Some U))
    (HR : R <> JNull) (Ha : token_field R "access_token" = Some (JStr a)) (Ha' : a <> "")
    (HU : json_truthy U = true) :
  let st := api (v_auth (fst (AuthProvider.login (S fuel) srv v email password))) in
  let reloaded := checkAuth (S fuel) srv (startup (ls_access st) (ls_refresh st)) in
  user reloaded = Some U /\ AuthProvider.isAuthenticated reloaded = true /\
  calls (api reloaded) = [mkCall (API_BASE_URL ++ "/auth/me") "GET" (Some ("Bearer " ++ a)) None].
Proof.
  cbn zeta. unfold AuthProvider.login. rewrite (api_login_ok _ _ _ _ _ R Hlogin HR).
  unfold getCurrentUser. rewrite (request_ok_at _ _ _ _ _ 200 U Hme eq_refl).
  unfold with_calls.
  cbn [fst snd v_auth api with_calls ls_access ls_refresh]. rewrite Ha.
  unfold checkAuth, startup, ApiService.isAuthenticated, init_api.
  unfold ls_value, stored_value. cbn [api accessToken js_string json_to_string].
  rewrite (js_truthy_str a Ha').
  unfold getCurrentUser. rewrite (request_ok_at _ _ _ _ _ 200 U Hme eq_refl).
  unfold with_calls, AuthProvider.isAuthenticated, ApiService.isAuthenticated, first_call.
  cbn [user api with_calls accessToken calls app opt_method opt_body].
  rewrite HU, (js_truthy_str a Ha'). repeat split.
Qed.

Lemma X_login_survives_reload_witness :
  (forall h c, fc_url c = API_BASE_URL ++ "/auth/me" -> srv_auth h c = Http 200 (Some user_u)) /\
  user (checkAuth 1 srv_auth
          (startup (ls_access (api (v_auth (fst (AuthProvider.login 1 srv_auth
                      (mkView (startup None None) None false) "u@example.org" "pw")))))
                   (ls_refresh (api (v_auth (fst (AuthProvider.login 1 srv_auth
                      (mkView (startup None None) None false) "u@example.org" "pw"))))))) = Some user_u.
Proof.
  assert (Hm : forall h c, fc_url c = API_BASE_URL ++ "/auth/me" -> srv_auth h c = Http 200 (Some user_u))
    by (intros h c Hc; unfold srv_auth; rewrite Hc; reflexivity).
  split; [exact Hm |].
  exact (proj1 (X_login_survives_reload 0 srv_auth (mkView (startup None None) None false)
           "u@example.org" "pw" (JObj [("access_token", JStr "a1"); ("refresh_token", JStr "r1");
                                        ("token_type", JStr "bearer")]) user_u "a1"
           (fun h c Hc => ltac:(unfold srv_auth; rewrite Hc; reflexivity)) Hm
           ltac:(discriminate) eq_refl ltac:(discriminate) eq_refl)).
Defined.

(** With the backend down (the browser's message mentions "fetch"), the
    provider's login shows "Backend server is not running. Please start
    the backend server.", stops loading, and leaves the user and the
    tokens as they were. *)
Theorem X_login_backend_down (fuel : nat) (srv : Server) (v : AuthView) (email password m : string)
    (Hdown : forall h c, srv h c = NetworkError m) (Hm : includes m "fetch" = true) :
  let res := AuthProvider.login (S fuel) srv v email password in
  error (fst res) = Some "Backend server is not running. Please start the backend server." /\
  isLoading (fst res) = false /\ user (v_auth (fst res)) = user (v_auth v) /\
  accessToken (api (v_auth (fst res))) = accessToken (api (v_auth v)) /\
  ls_access (api (v_auth (fst res))) = ls_access (api (v_auth v)) /\
  ls_refresh (api (v_auth (fst res))) = ls_refresh (api (v_auth v)).
Proof.
  cbn zeta. unfold AuthProvider.login, ApiService.login.
  rewrite (request_net_at _ _ _ _ _ m (fun h c _ => Hdown h c)).
  unfold outer_catch, with_calls. cbn [err_kind err_msg]. rewrite Hm.
  cbn [fst v_auth user api error isLoading with_calls accessToken ls_access ls_refresh].
  repeat split.
Qed.

Lemma X_login_backend_down_witness :
  includes "Failed to fetch" "fetch" = true /\
  error (fst (AuthProvider.login 1 srv_unreachable (mkView (startup None None) None false)
                "u@example.org" "pw")) =
    Some "Backend server is not running. Please start the backend server.".
Proof.
  split; [reflexivity |].
  exact (proj1 (X_login_backend_down 0 srv_unreachable (mkView (startup None None) None false)
           "u@example.org" "pw" "Failed to fetch" (fun _ _ => eq_refl) eq_refl)).
Defined.

(** When registration succeeds but the login that follows cannot reach
    the backend, [register] replaces the login's friendly message by the
    raw connectivity error; the account exists but the user stays logged
    out with their tokens unchanged. *)
Theorem X_register_login_unreachable (fuel : nat) (srv : Server) (v : AuthView)
    (email username password m : string) (J : Json)
    (Hreg : forall h c, fc_url c = API_BASE_URL ++ "/auth/register" -> srv h c = Http 200 (Some J))
    (Hlogin : forall h c, fc_url c = API_BASE_URL ++ "/auth/login" -> srv h c = NetworkError m)
    (Hm : includes m "fetch" = true) :
  let res := AuthProvider.register (S fuel) srv v email username password in
  error (fst res) =
    Some ("Backend server is not running. Please check if the backend server is running on " ++ API_BASE_URL) /\
  isLoading (fst res) = false /\ user (v_auth (fst res)) = user (v_auth v) /\
  accessToken (api (v_auth (fst res))) = accessToken (api (v_auth v)) /\
  ls_refresh (api (v_auth (fst res))) = ls_refresh (api (v_auth v)) /\
  List.length (calls (api (v_auth (fst res)))) = (List.length (calls (api (v_auth v))) + 2)%nat.
Proof.
  cbn zeta. unfold AuthProvider.register, ApiService.register.
  rewrite (request_ok_at _ _ _ _ _ 200 J Hreg eq_refl).
  unfold AuthProvider.login, ApiService.login.
  cbn [v_auth api user].
  rewrite (request_net_at _ _ _ _ _ m Hlogin).
  unfold outer_catch, with_calls. cbn [err_kind err_msg]. rewrite Hm.
  cbn [fst v_auth user api error isLoading with_calls accessToken ls_access ls_refresh calls err_msg].
  rewrite !length_app. cbn. repeat split. lia.
Qed.

Lemma X_register_login_unreachable_witness :
  (forall h c, fc_url c = API_BASE_URL ++ "/auth/register" -> srv_register_only h c = Http 200 (Some user_u)) /\
  error (fst (AuthProvider.register 1 srv_register_only (mkView (startup None None) None false)
                "u@example.org" "u" "pw")) =
    Some ("Backend server is not running. Please check if the backend server is running on " ++ API_BASE_URL).
Proof.
  assert (Hr : forall h c, fc_url c = API_BASE_URL ++ "/auth/register" ->
                 srv_register_only h c = Http 200 (Some user_u))
    by (intros h c Hc; unfold srv_register_only; rewrite Hc; reflexivity).
  split; [exact Hr |].
  exact (proj1 (X_register_login_unreachable 0 srv_register_only (mkView (startup None None) None false)
           "u@example.org" "u" "pw" "Failed to fetch" user_u Hr
           (fun h c Hc => ltac:(unfold srv_register_only; rewrite Hc; reflexivity)) eq_refl)).
Defined.

(** [logout] ends the session for good: the provider is no longer
    authenticated, and a provider mounted afterwards from localStorage
    starts logged out and its [checkAuth] makes no call at all. *)
Theorem X_logout_then_reload (fuel : nat) (srv : Server) (v : AuthView) :
  let v' := AuthProvider.logout v in
  let a := startup (ls_access (api (v_auth v'))) (ls_refresh (api (v_auth v'))) in
  AuthProvider.isAuthenticated (v_auth v') = false /\ error v' = None /\
  checkAuth fuel srv a = a /\ AuthProvider.isAuthenticated a = false /\ calls (api a) = [].
Proof.
  cbn zeta. repeat split.
Qed.

End AuthExtraFacts.

Module AdminExtraFacts.
Import ApiService ApiScenarios ApiExtraFacts AdminProvider AdminScenarios.

Lemma request_err_at (fuel : nat) (srv : Server) (st : ApiState) (ep : string) (o : Options)
    (status : Z) (body : option Json) :
  (forall h c, fc_url c = API_BASE_URL ++ ep -> srv h c = Http status body) ->
  response_ok status = false -> Z.eqb status 401 && js_truthy (accessToken st) = false ->
  request (S fuel) srv st ep o =
    (with_calls st (app (calls st) [first_call st ep o]), Fail (http_error body status)).
Proof.
  intros Hs Hbad Hno. cbn [request]. unfold fetch. rewrite Hs by reflexivity.
  rewrite Hbad. cbn [accessToken]. rewrite Hno. cbv zeta iota beta.
  rewrite outer_catch_http_error. reflexivity.
Qed.

Lemma request_ok_none_at (fuel : nat) (srv : Server) (st : ApiState) (ep : string) (o : Options)
    (status : Z) :
  (forall h c, fc_url c = API_BASE_URL ++ ep -> srv h c = Http status None) ->
  response_ok status = true ->
  request (S fuel) srv st ep o =
    (with_calls st (app (calls st) [first_call st ep o]), Fail (mkErr KSyntaxError "Unexpected token in JSON")).
Proof.
  intros Hs Hok. cbn [request]. unfold fetch. rewrite Hs by reflexivity. rewrite Hok. reflexivity.
Qed.

Lemma format_list_ids (xs : list Json) :
  match format_list xs with
  | inr reps => existsb (fun j => match j with JNull => true | _ => false end) xs = false /\
                map r_id reps = map (fun j => field j "id") xs
  | inl m => existsb (fun j => match j with JNull => true | _ => false end) xs = true /\
             m = "Cannot read properties of null (reading 'id')"
  end.
Proof.
  induction xs as [| x xs IH]; [split; reflexivity |].
  cbn [format_list existsb]. destruct x; cbn [format_report orb]; try (split; reflexivity);
    destruct (format_list xs) as [m | reps]; destruct IH as [IH1 IH2]; split; try assumption;
    cbn [map r_id]; rewrite IH2; reflexivity.
Qed.

Lemma finish_stats_ok (fuel : nat) (srv : Server) (t : AdminState) (S0 : Json) :
  (forall h c, fc_url c = API_BASE_URL ++ "/api/reports/stats/summary" -> srv h c = Http 200 (Some S0)) ->
  finish_with_stats (S fuel) srv t =
    (set_loading (set_stats (with_api t (with_calls (ad_api t) (app (calls (ad_api t)) [first_call (ad_api t) "/api/reports/stats/summary" GET]))) S0) false,
     Ok JNull).
Proof.
  intros Hs. unfold finish_with_stats, loadReportStats, getReportStats.
  rewrite (request_ok_at _ _ _ _ _ 200 S0 Hs eq_refl). reflexivity.
Qed.

Lemma sa_error (s : AdminState) (b : bool) (e : option string) :
  set_error (set_authenticated s b) e = set_authenticated (set_error s e) b.
Proof. reflexivity. Qed.
Lemma sa_loading (s : AdminState) (b l : bool) :
  set_loading (set_authenticated s b) l = set_authenticated (set_loading s l) b.
Proof. reflexivity. Qed.
Lemma sa_with_api (s : AdminState) (b : bool) (st : ApiState) :
  with_api (set_authenticated s b) st = set_authenticated (with_api s st) b.
Proof. reflexivity. Qed.
Lemma sa_set_reports (s : AdminState) (b : bool) (rs : list Report) :
  set_reports (set_authenticated s b) rs = set_authenticated (set_reports s rs) b.
Proof. reflexivity. Qed.
Lemma sa_set_stats (s : AdminState) (b : bool) (j : Json) :
  set_stats (set_authenticated s b) j = set_authenticated (set_stats s j) b.
Proof. reflexivity. Qed.
Lemma sa_ad_api (s : AdminState) (b : bool) : ad_api (set_authenticated s b) = ad_api s.
Proof. reflexivity. Qed.
Lemma sa_reports (s : AdminState) (b : bool) : reports (set_authenticated s b) = reports s.
Proof. reflexivity. Qed.
Lemma sa_fail_with (s : AdminState) (b : bool) (e : JsError) :
  fail_with (set_authenticated s b) e = (set_authenticated (fst (fail_with s e)) b, snd (fail_with s e)).
Proof. reflexivity. Qed.
Lemma sa_loadReportStats (fuel : nat) (srv : Server) (s : AdminState) (b : bool) :
  loadReportStats fuel srv (set_authenticated s b) =
    (set_authenticated (fst (loadReportStats fuel srv s)) b, snd (loadReportStats fuel srv s)).
Proof.
  unfold loadReportStats. rewrite sa_ad_api.
  destruct (getReportStats fuel srv (ad_api s)) as [st1 [j | e |]]; reflexivity.
Qed.
Lemma sa_finish (fuel : nat) (srv : Server) (s : AdminState) (b : bool) :
  finish_with_stats fuel srv (set_authenticated s b) =
    (set_authenticated (fst (finish_with_stats fuel srv s)) b, snd (finish_with_stats fuel srv s)).
Proof.
  unfold finish_with_stats. rewrite sa_loadReportStats.
  destruct (loadReportStats fuel srv s) as [s1 [j | e |]]; reflexivity.
Qed.

Lemma flag_loadReportStats (fuel : nat) (srv : Server) (s : AdminState) :
  isAdminAuthenticated (fst (loadReportStats fuel srv s)) = isAdminAuthenticated s.
Proof.
  unfold loadReportStats. destruct (getReportStats fuel srv (ad_api s)) as [st1 [j | e |]]; reflexivity.
Qed.
Lemma flag_finish (fuel : nat) (srv : Server) (s : AdminState) :
  isAdminAuthenticated (fst (finish_with_stats fuel srv s)) = isAdminAuthenticated s.
Proof.
  unfold finish_with_stats. pose proof (flag_loadReportStats fuel srv s) as H.
  destruct (loadReportStats fuel srv s) as [s1 [j | e |]]; exact H.
Qed.

Create Rewrite HintDb admin_flag.
#[local] Hint Rewrite sa_error sa_loading sa_with_api sa_set_reports sa_set_stats sa_ad_api sa_reports
  sa_fail_with sa_loadReportStats sa_finish : admin_flag.

Ltac flag_case :=
  cbv zeta; autorewrite with admin_flag;
  repeat (match goal with |- context [match ?x with _ => _ end] => destruct x end;
          cbn beta iota; autorewrite with admin_flag);
  reflexivity.

Ltac split_results :=
  repeat (match goal with |- context [match ?x with _ => _ end] => destruct x end;
          cbn [fst snd isAdminAuthenticated reports reportStats isLoading error ls_admin ad_api]).

(** The admin session survives a reload: after the right passcode the
    flag is set and stored, and a provider mounted from localStorage
    starts logged in; after [logoutAdmin] it starts logged out, with the
    reports and statistics cleared. *)
Theorem X_admin_passcode_persists (s : AdminState) (st : ApiState) :
  let s1 := fst (loginAdmin ADMIN_PASSCODE s) in
  snd (loginAdmin ADMIN_PASSCODE s) = true /\ isAdminAuthenticated s1 = true /\
  isAdminAuthenticated (mount (ls_admin s1) st) = true /\
  isAdminAuthenticated (logoutAdmin s1) = false /\
  isAdminAuthenticated (mount (ls_admin (logoutAdmin s1)) st) = false /\
  reports (logoutAdmin s1) = [] /\ reportStats (logoutAdmin s1) = JNull.
Proof. cbn zeta. repeat split. Qed.

(** None of the report operations looks at [isAdminAuthenticated]: run
    on a state whose flag is changed, each one does the same calls and
    reaches the same state up to that flag, and none of them changes
    the flag. *)
Theorem X_admin_ops_ignore_flag (fuel : nat) (srv : Server) (b : bool) (s : AdminState)
    (reportId : Z) (status : string) (d : ReportData) (statusFilter search : option string) :
  addReport fuel srv d (set_authenticated s b) =
    (set_authenticated (fst (addReport fuel srv d s)) b, snd (addReport fuel srv d s)) /\
  updateReportStatus fuel srv reportId status (set_authenticated s b) =
    (set_authenticated (fst (updateReportStatus fuel srv reportId status s)) b,
     snd (updateReportStatus fuel srv reportId status s)) /\
  deleteReport fuel srv reportId (set_authenticated s b) =
    (set_authenticated (fst (deleteReport fuel srv reportId s)) b, snd (deleteReport fuel srv reportId s)) /\
  loadReports fuel srv statusFilter search (set_authenticated s b) =
    (set_authenticated (fst (loadReports fuel srv statusFilter search s)) b,
     snd (loadReports fuel srv statusFilter search s)) /\
  loadReportStats fuel srv (set_authenticated s b) =
    (set_authenticated (fst (loadReportStats fuel srv s)) b, snd (loadReportStats fuel srv s)) /\
  isAdminAuthenticated (fst (addReport fuel srv d s)) = isAdminAuthenticated s /\
  isAdminAuthenticated (fst (updateReportStatus fuel srv reportId status s)) = isAdminAuthenticated s /\
  isAdminAuthenticated (fst (deleteReport fuel srv reportId s)) = isAdminAuthenticated s /\
  isAdminAuthenticated (fst (loadReports fuel srv statusFilter search s)) = isAdminAuthenticated s.
Proof.
  repeat split;
    try (unfold addReport, updateReportStatus, deleteReport, loadReports; flag_case; fail).
  all: unfold addReport, updateReportStatus, deleteReport, loadReports; cbv zeta;
    repeat (match goal with |- context [match ?x with _ => _ end] => destruct x end; cbn beta iota);
    rewrite ?flag_finish; reflexivity.
Qed.

(** [loadReportStats] never rejects: a failed statistics fetch is only
    logged. It changes nothing but the statistics and the token store. *)
Theorem X_admin_loadReportStats_never_fails (fuel : nat) (srv : Server) (s : AdminState) :
  let res := loadReportStats fuel srv s in
  (snd res = Ok JNull \/ snd res = Stuck) /\
  isAdminAuthenticated (fst res) = isAdminAuthenticated s /\ reports (fst res) = reports s /\
  isLoading (fst res) = isLoading s /\ error (fst res) = error s /\ ls_admin (fst res) = ls_admin s.
Proof.
  cbn zeta. unfold loadReportStats, set_stats, with_api.
  split_results; repeat split; auto.
Qed.

(** A successful delete followed by a successful statistics fetch: the
    report with that id is gone, the others stay in order, the new
    statistics are shown, no error, not loading; two calls were made,
    the DELETE and the statistics fetch. *)
Theorem X_admin_delete_success (fuel : nat) (srv : Server) (reportId : Z) (s : AdminState)
    (status : Z) (J S0 : Json)
    (Hdel : forall h c, fc_url c = API_BASE_URL ++ "/api/reports/" ++ Z_to_string reportId ->
                        srv h c = Http status (Some J))
    (Hok : response_ok status = true)
    (Hstats : forall h c, fc_url c = API_BASE_URL ++ "/api/reports/stats/summary" ->
                          srv h c = Http 200 (Some S0)) :
  let res := deleteReport (S fuel) srv reportId s in
  snd res = Ok JNull /\
  reports (fst res) = filter (fun rep => negb (report_is rep reportId)) (reports s) /\
  (forall rep, In rep (reports (fst res)) -> report_is rep reportId = false) /\
  reportStats (fst res) = S0 /\ error (fst res) = None /\ isLoading (fst res) = false /\
  calls (ad_api (fst res)) =
    app (calls (ad_api s))
      [first_call (ad_api s) ("/api/reports/" ++ Z_to_string reportId) (mkOptions "DELETE" None);
       first_call (ad_api s) "/api/reports/stats/summary" GET].
Proof.
  cbn zeta. unfold deleteReport, ApiService.deleteReport.
  rewrite (request_ok_at _ _ _ _ _ status J Hdel Hok).
  rewrite (finish_stats_ok _ _ _ S0 Hstats).
  cbn [fst snd reports reportStats error isLoading ad_api calls accessToken set_loading set_stats set_reports set_error with_api with_calls].
  split; [reflexivity |]. split; [reflexivity |]. split.
  { intros rep Hin. apply filter_In in Hin as [_ H]. destruct (report_is rep reportId); [discriminate | reflexivity]. }
  split; [reflexivity |]. split; [reflexivity |]. split; [reflexivity |].
  rewrite <- app_assoc. reflexivity.
Qed.

Lemma X_admin_delete_success_witness :
  (forall h c, fc_url c = API_BASE_URL ++ "/api/reports/stats/summary" -> srv_admin h c = Http 200 (Some stats_j)) /\
  reports (fst (deleteReport 1 srv_admin 1 admin12)) = [rep_of 2 "pending"].
Proof.
  assert (Hs : forall h c, fc_url c = API_BASE_URL ++ "/api/reports/stats/summary" ->
                 srv_admin h c = Http 200 (Some stats_j))
    by (intros h c Hc; unfold srv_admin; rewrite Hc; reflexivity).
  split; [exact Hs |].
  exact (proj1 (proj2 (X_admin_delete_success 0 srv_admin 1 admin12 200
           (JObj [("message", JStr "Report deleted")]) stats_j
           (fun h c Hc => ltac:(unfold srv_admin; rewrite Hc; reflexivity)) eq_refl Hs))).
Defined.

(** A delete the server acknowledges with a 2xx answer that is not JSON
    (such as 204 No Content) is reported as failed: [request] still
    parses the body, so the [SyntaxError] is shown and rethrown, the
    deleted report stays in the list and the statistics are not
    refreshed. *)
Theorem X_admin_delete_no_content (fuel : nat) (srv : Server) (reportId : Z) (s : AdminState)
    (status : Z)
    (Hdel : forall h c, fc_url c = API_BASE_URL ++ "/api/reports/" ++ Z_to_string reportId ->
                        srv h c = Http status None)
    (Hok : response_ok status = true) :
  let res := deleteReport (S fuel) srv reportId s in
  (exists e, snd res = Fail e /\ err_kind e = KSyntaxError /\ error (fst res) = Some (err_msg e)) /\
  reports (fst res) = reports s /\ reportStats (fst res) = reportStats s /\
  isLoading (fst res) = false /\
  List.length (calls (ad_api (fst res))) = S (List.length (calls (ad_api s))).
Proof.
  cbn zeta. unfold deleteReport, ApiService.deleteReport.
  rewrite (request_ok_none_at _ _ _ _ _ status Hdel Hok).
  unfold fail_with.
  cbn [fst snd reports reportStats error isLoading ad_api calls err_msg set_loading set_stats set_reports set_error with_api with_calls].
  rewrite length_app. cbn [List.length]. repeat split; [| lia].
  eexists. repeat split.
Qed.

Lemma X_admin_delete_no_content_witness :
  (forall h c, fc_url c = API_BASE_URL ++ "/api/reports/" ++ Z_to_string 1 ->
     srv_no_content h c = Http 204 None) /\
  reports (fst (deleteReport 1 srv_no_content 1 admin12)) = reports admin12.
Proof.
  split; [intros; reflexivity |].
  exact (proj1 (proj2 (X_admin_delete_no_content 0 srv_no_content 1 admin12 204
           (fun _ _ _ => eq_refl) eq_refl))).
Defined.

(** A failed status update leaves the reports and statistics alone,
    shows the error and rethrows it. The error is the body's [detail]
    (or "HTTP error! status: N"), or, for a [null] body, the [TypeError]
    of reading its [detail]. *)
Theorem X_admin_update_status_error (fuel : nat) (srv : Server) (reportId : Z) (status : string)
    (s : AdminState) (code : Z) (body : option Json)
    (Hans : forall h c, fc_url c = API_BASE_URL ++ "/api/reports/" ++ Z_to_string reportId ++ "/status" ->
                        srv h c = Http code body)
    (Hbad : response_ok code = false)
    (Hno : Z.eqb code 401 && js_truthy (accessToken (ad_api s)) = false) :
  let res := updateReportStatus (S fuel) srv reportId status s in
  let e := match body with
           | Some JNull => mkErr KTypeError "Cannot read properties of null (reading 'detail')"
           | _ => mkErr KError (detail_message body code)
           end in
  snd res = Fail e /\ error (fst res) = Some (err_msg e) /\
  reports (fst res) = reports s /\ reportStats (fst res) = reportStats s /\ isLoading (fst res) = false.
Proof.
  cbn zeta. unfold updateReportStatus, ApiService.updateReportStatus.
  rewrite (request_err_at _ _ _ _ _ code body Hans Hbad Hno).
  repeat split.
Qed.

Lemma X_admin_update_status_error_witness :
  response_ok 500 = false /\
  error (fst (updateReportStatus 1 srv_me_500 1 "resolved" admin12)) = Some "HTTP error! status: 500".
Proof.
  split; [reflexivity |].
  exact (proj1 (proj2 (X_admin_update_status_error 0 srv_me_500 1 "resolved" admin12 500 None
           (fun _ _ _ => eq_refl) eq_refl eq_refl))).
Defined.

(** A successful status update whose answer is not [null], followed by
    a successful statistics fetch: the list keeps its order and ids,
    every report with that id takes the status and [updated_at] of the
    server's answer, every other report is unchanged, and the new
    statistics are shown. *)
Theorem X_admin_update_status_success (fuel : nat) (srv : Server) (reportId : Z) (status : string)
    (s : AdminState) (code : Z) (U S0 : Json)
    (Hans : forall h c, fc_url c = API_BASE_URL ++ "/api/reports/" ++ Z_to_string reportId ++ "/status" ->
                        srv h c = Http code (Some U))
    (HU : U <> JNull) (Hok : response_ok code = true)
    (Hstats : forall h c, fc_url c = API_BASE_URL ++ "/api/reports/stats/summary" ->
                          srv h c = Http 200 (Some S0)) :
  let res := updateReportStatus (S fuel) srv reportId status s in
  snd res = Ok JNull /\
  map r_id (reports (fst res)) = map r_id (reports s) /\
  (forall rep, In rep (reports (fst res)) -> report_is rep reportId = true ->
     r_status rep = field U "status" /\ r_updated_at rep = field U "updated_at") /\
  filter (fun rep => negb (report_is rep reportId)) (reports (fst res)) =
    filter (fun rep => negb (report_is rep reportId)) (reports s) /\
  reportStats (fst res) = S0 /\ error (fst res) = None /\ isLoading (fst res) = false.
Proof.
  cbn zeta. unfold updateReportStatus, ApiService.updateReportStatus.
  rewrite (request_ok_at _ _ _ _ _ code U Hans Hok).
  rewrite (finish_stats_ok _ _ _ S0 Hstats).
  cbn [fst snd reports reportStats error isLoading set_loading set_stats set_reports set_error with_api with_calls].
  assert (Hid : forall rep, report_is
            (if report_is rep reportId then
               mkReport (r_id rep) (r_name rep) (r_email rep) (r_phone rep) (r_subject rep)
                 (r_description rep) (r_files rep) (r_created_at rep) (field U "updated_at")
                 (field U "status") else rep) reportId = report_is rep reportId)
    by (intros rep; destruct (report_is rep reportId) eqn:E; [exact E | exact E]).
  split; [reflexivity |]. split; [| split; [| split; [| repeat split]]].
  - rewrite map_map. apply map_ext. intros x. destruct (report_is x reportId); reflexivity.
  - intros x Hin Hrep. apply in_map_iff in Hin as [r0 [<- _]].
    rewrite Hid in Hrep. rewrite Hrep. split; reflexivity.
  - induction (reports s) as [| r0 rs IH]; [reflexivity |].
    cbn [map filter]. rewrite Hid. destruct (report_is r0 reportId) eqn:E; cbn [negb]; [exact IH |].
    rewrite IH. reflexivity.
Qed.

Lemma X_admin_update_status_success_witness :
  (forall h c, fc_url c = API_BASE_URL ++ "/api/reports/stats/summary" -> srv_admin h c = Http 200 (Some stats_j)) /\
  map r_status (reports (fst (updateReportStatus 1 srv_admin 1 "resolved" admin12))) =
    [Some (JStr "resolved"); Some (JStr "pending")].
Proof.
  assert (Hs : forall h c, fc_url c = API_BASE_URL ++ "/api/reports/stats/summary" ->
                 srv_admin h c = Http 200 (Some stats_j))
    by (intros h c Hc; unfold srv_admin; rewrite Hc; reflexivity).
  split; [exact Hs |].
  destruct (X_admin_update_status_success 0 srv_admin 1 "resolved" admin12 200 updated_1 stats_j
              (fun h c Hc => ltac:(unfold srv_admin; rewrite Hc; reflexivity))
              ltac:(discriminate) eq_refl Hs)
    as [_ [_ [_ _]]].
  vm_compute. reflexivity.
Defined.

Lemma format_report_some (N : Json) :
  N <> JNull ->
  format_report N =
    Some (mkReport (field N "id") (field N "name") (field N "email")
            (Some (match field N "phone" with
                   | Some p => if json_truthy p then p else JStr ""
                   | None => JStr ""
                   end))
            (field N "subject") (field N "description") (field N "files")
            (field N "created_at") (field N "updated_at") (field N "status")).
Proof. intros HN. destruct N; [congruence | reflexivity ..]. Qed.

(** A successful [addReport] puts the server's report first, keeps the
    earlier ones after it in order, stores a phone that is never
    [undefined] or [null] (an absent or falsy phone becomes ""), posts
    the six fields of the form, and refreshes the statistics. *)
Theorem X_admin_add_report_success (fuel : nat) (srv : Server) (d : ReportData) (s : AdminState)
    (code : Z) (N S0 : Json)
    (Hpost : forall h c, fc_url c = API_BASE_URL ++ "/api/reports" -> srv h c = Http code (Some N))
    (Hok : response_ok code = true) (HN : N <> JNull)
    (Hstats : forall h c, fc_url c = API_BASE_URL ++ "/api/reports/stats/summary" ->
                          srv h c = Http 200 (Some S0)) :
  let res := addReport (S fuel) srv d s in
  snd res = Ok JNull /\
  (exists rep, reports (fst res) = rep :: reports s /\ r_id rep = field N "id" /\
     r_status rep = field N "status" /\ r_phone rep <> None /\ r_phone rep <> Some JNull) /\
  reportStats (fst res) = S0 /\ error (fst res) = None /\ isLoading (fst res) = false /\
  firstn 1 (skipn (List.length (calls (ad_api s))) (calls (ad_api (fst res)))) =
    [first_call (ad_api s) "/api/reports" (mkOptions "POST" (Some (report_create d)))].
Proof.
  cbn zeta. unfold addReport, createReport.
  rewrite (request_ok_at _ _ _ _ _ code N Hpost Hok).
  rewrite (format_report_some N HN). cbn iota.
  rewrite (finish_stats_ok _ _ _ S0 Hstats).
  cbn [fst snd reports reportStats error isLoading ad_api calls r_id r_status r_phone
       set_loading set_stats set_reports set_error with_api with_calls].
  split; [reflexivity |]. split.
  { eexists. split; [reflexivity |]. split; [reflexivity |]. split; [reflexivity |].
    split; [discriminate |].
    destruct (field N "phone") as [p |]; [destruct (json_truthy p) eqn:Ep |]; [| discriminate ..].
    intros [= ->]. discriminate. }
  split; [reflexivity |]. split; [reflexivity |]. split; [reflexivity |].
  rewrite <- app_assoc, skipn_app, skipn_all, Nat.sub_diag. reflexivity.
Qed.

Lemma X_admin_add_report_success_witness :
  new_report <> JNull /\
  map r_id (reports (fst (addReport 1 srv_admin data_b admin12))) =
    [Some (JNum 3); Some (JNum 1); Some (JNum 2)].
Proof.
  split; [discriminate |].
  destruct (X_admin_add_report_success 0 srv_admin data_b admin12 201 new_report stats_j
              (fun h c Hc => ltac:(unfold srv_admin; rewrite Hc; reflexivity)) eq_refl
              ltac:(discriminate)
              (fun h c Hc => ltac:(unfold srv_admin; rewrite Hc; reflexivity))) as [_ [[rep [E [Hi _]]] _]].
  rewrite E. cbn [map]. rewrite Hi. reflexivity.
Defined.

(** A failed report load is not rethrown: the list is emptied (even if
    reports were shown before), the error is shown, loading stops, and
    the statistics are left alone. The error shown is the body's
    [detail] (or "HTTP error! status: N"), or, for a [null] body, the
    message of the [TypeError] of reading its [detail]. *)
Theorem X_admin_loadReports_error (fuel : nat) (srv : Server) (statusFilter search : option string)
    (s : AdminState) (code : Z) (body : option Json)
    (Hans : forall h c, fc_url c = API_BASE_URL ++ reports_endpoint statusFilter search ->
                        srv h c = Http code body)
    (Hbad : response_ok code = false)
    (Hno : Z.eqb code 401 && js_truthy (accessToken (ad_api s)) = false) :
  let res := loadReports (S fuel) srv statusFilter search s in
  snd res = Ok JNull /\ reports (fst res) = [] /\
  error (fst res) = Some (match body with
                          | Some JNull => "Cannot read properties of null (reading 'detail')"
                          | _ => detail_message body code
                          end) /\ isLoading (fst res) = false /\
  reportStats (fst res) = reportStats s.
Proof.
  cbn zeta. unfold loadReports, getAllReports.
  rewrite (request_err_at _ _ _ _ _ code body Hans Hbad Hno).
  repeat split. destruct body as [[] |]; reflexivity.
Qed.

Lemma X_admin_loadReports_error_witness :
  response_ok 500 = false /\
  reports (fst (loadReports 1 srv_me_500 (Some "pending") None admin12)) = [].
Proof.
  split; [reflexivity |].
  exact (proj1 (proj2 (X_admin_loadReports_error 0 srv_me_500 (Some "pending") None admin12 500 None
           (fun _ _ _ => eq_refl) eq_refl eq_refl))).
Defined.

(** A report list the server returns as an array: without [null]
    entries it replaces the shown list, same length and ids in the same
    order, with no error; one [null] entry makes the whole load fail with
    the [TypeError] of reading [id] of [null], and the list is emptied. *)
Theorem X_admin_loadReports_array (fuel : nat) (srv : Server) (statusFilter search : option string)
    (s : AdminState) (code : Z) (xs : list Json)
    (Hans : forall h c, fc_url c = API_BASE_URL ++ reports_endpoint statusFilter search ->
                        srv h c = Http code (Some (JArr xs)))
    (Hok : response_ok code = true) :
  let res := loadReports (S fuel) srv statusFilter search s in
  snd res = Ok JNull /\ isLoading (fst res) = false /\
  if existsb (fun j => match j with JNull => true | _ => false end) xs
  then reports (fst res) = [] /\ error (fst res) = Some "Cannot read properties of null (reading 'id')"
  else map r_id (reports (fst res)) = map (fun j => field j "id") xs /\ error (fst res) = None.
Proof.
  cbn zeta. unfold loadReports, getAllReports.
  rewrite (request_ok_at _ _ _ _ _ code (JArr xs) Hans Hok).
  cbn [format_all]. pose proof (format_list_ids xs) as Hf.
  destruct (format_list xs) as [m | reps]; destruct Hf as [Hx Hm]; rewrite Hx;
    cbn [fst snd error reports isLoading set_loading set_reports set_error with_api].
  - subst m. repeat split.
  - repeat split. exact Hm.
Qed.

Lemma X_admin_loadReports_array_witness :
  (forall h c, fc_url c = API_BASE_URL ++ reports_endpoint None None ->
     srv_list_null h c = Http 200 (Some (JArr [new_report; JNull]))) /\
  error (fst (loadReports 1 srv_list_null None None admin12)) =
    Some "Cannot read properties of null (reading 'id')".
Proof.
  split; [intros; reflexivity |].
  exact (proj2 (proj2 (proj2 (X_admin_loadReports_array 0 srv_list_null None None admin12 200
           [new_report; JNull] (fun _ _ _ => eq_refl) eq_refl)))).
Defined.

End AdminExtraFacts.

Module ChatExtraFacts.
Import ChatProvider ChatScenarios System ChatFacts.

Lemma js_cons (a : ascii) (s : string) : js (String a s) = N_of_ascii a :: js s.
Proof. reflexivity. Qed.

Lemma digits_val_digit (acc : Z) (seen : bool) (c : N) (s : jstr) :
  is_digit c = true -> digits_val acc seen (c :: s) = digits_val (acc * 10 + (Z.of_N c - 48)) true s.
Proof. intros H. cbn [digits_val]. rewrite H. reflexivity. Qed.

Ltac digit_value :=
  match goal with
  | |- context [Z.of_N (N_of_ascii ?a) - 48] =>
      let v := eval vm_compute in (Z.of_N (N_of_ascii a) - 48) in
      replace (Z.of_N (N_of_ascii a) - 48) with v by reflexivity
  end.

Lemma digits_of_uint_acc (l : Decimal.uint) :
  forall acc, digits_val (Zpos acc) true (js (NilEmpty.string_of_uint l)) =
              Some (Zpos (Pos.of_uint_acc l acc)).
Proof.
  induction l; intros acc; [reflexivity | ..];
    cbn [NilEmpty.string_of_uint Pos.of_uint_acc];
    rewrite js_cons, digits_val_digit by reflexivity; rewrite <- IHl; digit_value;
    f_equal; rewrite ?Pos2Z.inj_add, ?Pos2Z.inj_mul; lia.
Qed.

Lemma digits_of_uint (l : Decimal.uint) :
  digits_val 0 true (js (NilEmpty.string_of_uint l)) = Some (Z.of_N (Pos.of_uint l)).
Proof.
  induction l; [reflexivity | ..];
    cbn [NilEmpty.string_of_uint Pos.of_uint];
    rewrite js_cons, digits_val_digit by reflexivity; digit_value;
    [exact IHl | ..]; cbn [Z.mul Z.add]; apply digits_of_uint_acc.
Qed.

Lemma parse_uint (p : positive) :
  digits_val 0 false (js (NilZero.string_of_uint (Pos.to_uint p))) = Some (Zpos p) /\
  exists c s, js (NilZero.string_of_uint (Pos.to_uint p)) = c :: s /\ (48 <= c <= 57)%N.
Proof.
  pose proof (DecimalPos.Unsigned.to_uint_nonnil p) as Hn.
  pose proof (DecimalPos.Unsigned.of_to p) as Ho.
  pose proof (digits_of_uint (Pos.to_uint p)) as Hd. rewrite Ho in Hd.
  destruct (Pos.to_uint p) as [| l | l | l | l | l | l | l | l | l | l]; [contradiction | ..];
    cbn [NilZero.string_of_uint NilEmpty.string_of_uint] in *; rewrite js_cons in *;
    (split; [rewrite digits_val_digit in * by reflexivity; exact Hd |
             do 2 eexists; split; [reflexivity | vm_compute; split; discriminate]]).
Qed.

Lemma parseInt_toString (z : Z) : parseInt (toString z) = Some z.
Proof.
  unfold toString, Z_to_string. destruct z as [| p | p]; [reflexivity | |].
  - cbn [Z.to_int NilZero.string_of_int].
    destruct (parse_uint p) as [Hv [c [s [Hcs Hc]]]].
    rewrite Hcs in *. unfold parseInt.
    replace (N.eqb c 45) with false by (symmetry; apply N.eqb_neq; lia).
    replace (N.eqb c 43) with false by (symmetry; apply N.eqb_neq; lia).
    exact Hv.
  - cbn [Z.to_int NilZero.string_of_int]. rewrite js_cons. unfold parseInt.
    destruct (parse_uint p) as [Hv _].
    change (N_of_ascii "-") with 45%N. rewrite N.eqb_refl. rewrite Hv. reflexivity.
Qed.

(** For server ids within [Number.MAX_SAFE_INTEGER], the id of a
    converted server session parses back to the server's id, so every
    remote call made for it addresses that session; it never falls in
    the local namespace. The same holds for the ids of converted
    messages. *)
Theorem X_converted_ids_round_trip (session : ChatSession) (messages : list ApiMessage)
    (Hsafe : Z.abs (cs_id session) <= MAX_SAFE_INTEGER)
    (Hsafe_msgs : Forall (fun m => Z.abs (am_id m) <= MAX_SAFE_INTEGER) messages) :
  let chat := convertApiChatToLocal session messages in
  parseInt (h_id chat) = Some (cs_id session) /\ is_local (h_id chat) = false /\
  map (fun m => parseInt (m_id m)) (h_messages chat) = map (fun m => Some (am_id m)) messages.
Proof.
  cbn zeta. cbn [convertApiChatToLocal h_id h_messages].
  split; [apply parseInt_toString |]. split; [apply toString_not_local |].
  rewrite map_map. apply map_ext. intros m. apply parseInt_toString.
Qed.

Lemma X_converted_ids_round_trip_witness :
  parseInt (h_id (convertApiChatToLocal session5 server_log5)) = Some 5 /\
  map (fun m => parseInt (m_id m)) (h_messages (convertApiChatToLocal session5 server_log5)) =
    [Some 1; Some 2].
Proof.
  assert (Hs : Z.abs (cs_id session5) <= MAX_SAFE_INTEGER) by (vm_compute; discriminate).
  assert (Hm : Forall (fun m => Z.abs (am_id m) <= MAX_SAFE_INTEGER) server_log5)
    by (repeat constructor; vm_compute; discriminate).
  destruct (X_converted_ids_round_trip session5 server_log5 Hs Hm) as [H1 [_ H2]].
  split; [exact H1 | exact H2].
Defined.

(** Selecting a remote session while authenticated fetches its messages
    (one call, for the session's server id) and shows them in the
    current chat; the Directory entry keeps its old message list. If
    the fetch fails, the current chat is left as it was. Either way
    loading ends. *)
Theorem X_selectChat_remote (srv : ChatServer) (s : ChatState) (z : Z) (c : ChatHistory)
    (Hfind : find_by_id (toString z) (chatHistories s) = Some c) :
  let '(s1, effs, r) := selectChat true srv (toString z) s in
  effs = [Net (GetChatMessages (Some z))] /\ r = Some tt /\
  chatHistories s1 = chatHistories s /\ isLoading s1 = false /\
  currentChat s1 = match sv_messages srv (Some z) with
                   | Some ms => Some (with_messages c (map convertMessage ms))
                   | None => currentChat s
                   end.
Proof.
  unfold selectChat, bind, get, ret, try_finally, try_catch, setIsLoading, setCurrentChat,
    update_current, call.
  rewrite toString_not_local. cbn [negb]. rewrite parseInt_toString.
  cbn [chatHistories currentChat isLoading]. rewrite Hfind.
  destruct (sv_messages srv (Some z)); cbn; repeat split.
Qed.

Lemma X_selectChat_remote_witness :
  find_by_id (toString 5) (chatHistories state5) = Some chat5 /\
  currentChat (run (selectChat true srv_ok (toString 5)) state5) =
    Some (with_messages chat5 (map convertMessage server_log5)).
Proof.
  split; [reflexivity |].
  pose proof (X_selectChat_remote srv_ok state5 5 chat5 eq_refl) as H.
  unfold run. destruct (selectChat true srv_ok (toString 5) state5) as [[s1 effs] r].
  destruct H as [_ [_ [_ [_ H]]]]. exact H.
Defined.

(** Creating a chat while authenticated makes one call to create a
    server session. On success the converted session, with no messages,
    is put first in the Directory and made current; on failure the
    error is swallowed and the state is unchanged. *)
Theorem X_createNewChat_remote (srv : ChatServer) (env : Env) (s : ChatState) :
  let '(s1, effs, r) := createNewChat true srv env s in
  effs = [Net (CreateChatSession NEW_CONVERSATION)] /\ r = Some tt /\
  match sv_create srv NEW_CONVERSATION with
  | Some session =>
      chatHistories s1 = convertApiChatToLocal session [] :: chatHistories s /\
      currentChat s1 = Some (convertApiChatToLocal session []) /\
      h_messages (convertApiChatToLocal session []) = [] /\ isLoading s1 = isLoading s
  | None => s1 = s
  end.
Proof.
  unfold createNewChat, bind, ret, try_catch, setChatHistories, setCurrentChat, update_current, call.
  cbn [negb]. destruct (sv_create srv NEW_CONVERSATION); cbn; repeat split.
Qed.

Lemma filter_idem {A} (f : A -> bool) (l : list A) : filter f (filter f l) = filter f l.
Proof.
  induction l as [| x l IH]; [reflexivity |]. cbn [filter].
  destruct (f x) eqn:E; cbn [filter]; rewrite ?E, IH; reflexivity.
Qed.

(** When the user logs out, only the local sessions stay, in their
    order, and the current chat is kept only if it is local; nothing is
    sent to the server, and running the effect again changes nothing. *)
Theorem X_logout_keeps_local_sessions (srv : ChatServer) (s : ChatState) :
  let '(s1, effs, r) := authEffect false srv s in
  effs = [] /\ r = Some tt /\
  chatHistories s1 = filter (fun c => is_local (h_id c)) (chatHistories s) /\
  (forall c, In c (sessions s1) -> is_local (h_id c) = true) /\
  (forall c, currentChat s = Some c -> is_local (h_id c) = true -> currentChat s1 = Some c) /\
  authEffect false srv s1 = (s1, [], Some tt).
Proof.
  unfold authEffect, bind, setChatHistories, update_current.
  cbn [chatHistories currentChat isLoading fst snd app].
  split; [reflexivity |]. split; [reflexivity |]. split; [reflexivity |].
  split; [| split].
  - intros c Hin. unfold sessions in Hin. cbn [currentChat chatHistories] in Hin.
    destruct (currentChat s) as [p |] eqn:Ec; [destruct (is_local (h_id p)) eqn:El |].
    + destruct Hin as [<- | Hin]; [exact El |]. apply filter_In in Hin. apply Hin.
    + apply filter_In in Hin. apply Hin.
    + apply filter_In in Hin. apply Hin.
  - intros c Ec Hl. rewrite Ec, Hl. reflexivity.
  - rewrite filter_idem.
    destruct (currentChat s) as [p |]; [destruct (is_local (h_id p)) eqn:El |]; cbn -[is_local];
      rewrite ?El; reflexivity.
Qed.

(** Sending while authenticated with no current chat, when the server
    refuses to create a session: the message is dropped silently; the
    state is unchanged and the creation attempt is the only call. *)
Theorem X_sendMessage_create_fails (srv : ChatServer) (env : Env) (content : jstr) (s : ChatState)
    (Hnone : currentChat s = None) (Hfail : sv_create srv NEW_CONVERSATION = None) :
  sendMessage true srv env content s = (s, [Net (CreateChatSession NEW_CONVERSATION)], Some tt).
Proof.
  unfold sendMessage, resolveTarget, bind, get, ret, try_catch, call.
  rewrite Hnone, Hfail. reflexivity.
Qed.

Lemma X_sendMessage_create_fails_witness :
  currentChat empty_state = None /\
  sendMessage true srv_down env0 (js "hi") empty_state =
    (empty_state, [Net (CreateChatSession NEW_CONVERSATION)], Some tt).
Proof.
  split; [reflexivity |].
  exact (X_sendMessage_create_fails srv_down env0 (js "hi") empty_state eq_refl eq_refl).
Defined.

(** Deleting a local session, logged in or not, makes no call: every
    session with that id leaves the Directory, the others keep their
    order, and if it was the current chat the first remaining session
    (or none) becomes current. *)
Theorem X_deleteChat_local (auth : bool) (srv : ChatServer) (s : ChatState) (chatId : jstr)
    (Hloc : is_local chatId = true) :
  let '(s1, effs, r) := deleteChat auth srv chatId s in
  effs = [] /\ r = Some tt /\
  chatHistories s1 = filter (fun h => negb (jeqb (h_id h) chatId)) (chatHistories s) /\
  (forall h, In h (chatHistories s1) -> h_id h <> chatId) /\
  currentChat s1 =
    match currentChat s with
    | Some c => if jeqb (h_id c) chatId then hd_error (chatHistories s1) else Some c
    | None => None
    end.
Proof.
  unfold deleteChat, bind, get, ret, setChatHistories, setCurrentChat, update_current.
  rewrite Hloc. cbn [chatHistories currentChat isLoading fst snd app].
  assert (Hnot : forall h, In h (filter (fun h => negb (jeqb (h_id h) chatId)) (chatHistories s)) ->
                      h_id h <> chatId).
  { intros h Hin E. apply filter_In in Hin as [_ Hin]. rewrite E, jeqb_refl in Hin. discriminate. }
  destruct (currentChat s) as [c |] eqn:Ec; [destruct (jeqb (h_id c) chatId) eqn:Ej |];
    cbn; repeat split; try exact Hnot;
    destruct (filter _ (chatHistories s)); reflexivity.
Qed.

Lemma X_deleteChat_local_witness :
  is_local (h_id (local_chat env0)) = true /\
  chatHistories (run (deleteChat true srv_ok (h_id (local_chat env0))) state_anon) = [] /\
  currentChat (run (deleteChat true srv_ok (h_id (local_chat env0))) state_anon) = None.
Proof.
  split; [reflexivity |].
  pose proof (X_deleteChat_local true srv_ok state_anon (h_id (local_chat env0)) eq_refl) as H.
  unfold run. destruct (deleteChat true srv_ok (h_id (local_chat env0)) state_anon) as [[s1 effs] r].
  destruct H as [_ [_ [H1 [_ H2]]]]. cbn [fst]. rewrite H2, H1.
  split; vm_compute; reflexivity.
Defined.

End ChatExtraFacts.
